(** * The WebSocket channel handler of courier (handlers/websocket/websocket.go)

    A shallow embedding of the handler: the two webhook endpoints
    ([registerUser], [receiveMessage]) and the outbound path ([sendMsgPart],
    [SendMsg]).  The handler is written against interfaces of its host (the
    backend, the HTTP client, the response helpers) and against libraries
    (URN construction, language tags, JSON); those are kept as interfaces
    here, and every interaction with them is recorded in a trace, so that
    statements such as "no backend call is made" or "exactly one POST is
    issued" are statements about the trace. *)

From Stdlib Require Import String Ascii List Bool ZArith Lia DecimalString.
Import ListNotations.
Open Scope string_scope.

Set Implicit Arguments.

(** ** Strings *)

(** [strings.Replace(s, old, new, 1)]: the first occurrence of [old] in [s]
    is replaced by [new]; [s] is returned unchanged when [old] does not
    occur.  (An empty [old] matches at the beginning of the string.) *)
Fixpoint strings_Replace1 (s old new : string) : string :=
  if String.prefix old s
  then new ++ String.substring (String.length old) (String.length s - String.length old) s
  else match s with
       | EmptyString => EmptyString
       | String c s' => String c (strings_Replace1 s' old new)
       end.

(** The spec's wording for the derived address: "with a leading "+"
    stripped".  Follows the spec, to be compared with what [SendMsg]
    computes. *)
Definition strip_leading_plus (s : string) : string :=
  match s with
  | String "+"%char s' => s'
  | _ => s
  end.

(** ** Data model *)

(** Go [error] values.  [ErrMsgNotFound] is the sentinel the handler compares
    against; every other error is told apart by its message. *)
Inductive Err : Type :=
| ErrMsgNotFound
| ErrOther (msg : string).

Record URN : Type := mkURN
  { urn_scheme : string; urn_path : string; urn_query : string; urn_display : string }.

Record Channel : Type := mkChannel
  { ch_uuid : string; ch_address : string; ch_schemes : list string }.

Record Contact : Type := mkContact { contact_uuid : string }.

Definition MsgID := Z.
Definition NilMsgID : MsgID := 0%Z.

(** Modelled from the spec: the canonical message of the host ([courier.Msg],
    declared outside this file).  Section 3 of the spec lists what an inbound
    event carries (external id, sender, timestamp, text, attachment, display
    name) and what an outbound message carries (id, text, recipient, quick
    replies, attachments); [msg_alreadyWritten] is the mark left by the
    deduplication check. *)
Record Msg : Type := mkMsg
  { msg_id : MsgID;
    msg_channel : Channel;
    msg_urn : URN;
    msg_text : string;
    msg_attachments : list string;
    msg_quickReplies : list string;
    msg_externalID : string;
    msg_receivedOn : Z;
    msg_contactName : string;
    msg_alreadyWritten : bool }.

(** The builder methods of [courier.Msg]; each updates the message in place
    and hands it back. *)
Definition WithExternalID (m : Msg) (id : string) : Msg :=
  mkMsg (msg_id m) (msg_channel m) (msg_urn m) (msg_text m) (msg_attachments m)
        (msg_quickReplies m) id (msg_receivedOn m) (msg_contactName m)
        (msg_alreadyWritten m).

Definition WithReceivedOn (m : Msg) (date : Z) : Msg :=
  mkMsg (msg_id m) (msg_channel m) (msg_urn m) (msg_text m) (msg_attachments m)
        (msg_quickReplies m) (msg_externalID m) date (msg_contactName m)
        (msg_alreadyWritten m).

Definition WithContactName (m : Msg) (name : string) : Msg :=
  mkMsg (msg_id m) (msg_channel m) (msg_urn m) (msg_text m) (msg_attachments m)
        (msg_quickReplies m) (msg_externalID m) (msg_receivedOn m) name
        (msg_alreadyWritten m).

Definition WithAttachment (m : Msg) (url : string) : Msg :=
  mkMsg (msg_id m) (msg_channel m) (msg_urn m) (msg_text m)
        (msg_attachments m ++ [url])%list
        (msg_quickReplies m) (msg_externalID m) (msg_receivedOn m)
        (msg_contactName m) (msg_alreadyWritten m).

Definition markAlreadyWritten (m : Msg) : Msg :=
  mkMsg (msg_id m) (msg_channel m) (msg_urn m) (msg_text m) (msg_attachments m)
        (msg_quickReplies m) (msg_externalID m) (msg_receivedOn m)
        (msg_contactName m) true.

(** The delivery states the handler names. *)
Inductive MsgStatusValue : Type :=
| MsgQueued | MsgSent | MsgDelivered | MsgWired | MsgErrored.

Record HTTPRequest : Type := mkRequest
  { req_method : string;
    req_url : string;
    req_headers : list (string * string);
    req_body : string }.

(** [http.Header.Set] on the request about to be sent. *)
Definition Header_Set (req : HTTPRequest) (key value : string) : HTTPRequest :=
  mkRequest (req_method req) (req_url req)
            (req_headers req ++ [(key, value)])%list (req_body req).

(** What [utils.MakeHTTPRequest] hands back beside its error. *)
Record RequestResponse : Type := mkRR
  { rr_request : HTTPRequest; rr_status : Z; rr_body : string }.

(** Modelled from the spec: the structured log of one send attempt
    ("request/response, timing, error if any"); [courier.ChannelLog] is
    declared outside this file. *)
Record ChannelLog : Type := mkLog
  { log_description : string;
    log_channel : Channel;
    log_msgID : MsgID;
    log_rr : option RequestResponse;
    log_error : option Err }.

Definition NewChannelLog (description : string) (ch : Channel) (id : MsgID)
    (err : Err) : ChannelLog :=
  mkLog description ch id None (Some err).

Definition NewChannelLogFromRR (description : string) (ch : Channel)
    (id : MsgID) (rr : RequestResponse) : ChannelLog :=
  mkLog description ch id (Some rr) None.

Definition WithError (l : ChannelLog) (description : string)
    (err : option Err) : ChannelLog :=
  match err with
  | Some e => mkLog description (log_channel l) (log_msgID l) (log_rr l) (Some e)
  | None => l
  end.

(** Modelled from the spec: the delivery status of one outbound message or
    one acknowledgement ([courier.MsgStatus], declared outside this file):
    "one status object per outbound message", carrying the status value, the
    external id and the logs attached to it. *)
Record MsgStatus : Type := mkStatus
  { status_channel : Channel;
    status_id : MsgID;
    status_externalID : string;
    status_value : MsgStatusValue;
    status_logs : list ChannelLog }.

Definition SetExternalID (s : MsgStatus) (id : string) : MsgStatus :=
  mkStatus (status_channel s) (status_id s) id (status_value s) (status_logs s).

Definition SetStatus (s : MsgStatus) (v : MsgStatusValue) : MsgStatus :=
  mkStatus (status_channel s) (status_id s) (status_externalID s) v (status_logs s).

Definition AddLog (s : MsgStatus) (l : ChannelLog) : MsgStatus :=
  mkStatus (status_channel s) (status_id s) (status_externalID s)
           (status_value s) (status_logs s ++ [l])%list.

(** [courier.Event]: what a webhook call produced. *)
Inductive Event : Type :=
| EvMsg (m : Msg)
| EvStatus (s : MsgStatus).

(** The items of a data response. *)
Inductive Data : Type :=
| EventRegisteredContactData (uuid : string)
| MsgReceiveData (m : Msg)
| StatusData (s : MsgStatus)
| InfoData (info : string).

(** What the handler writes to the [http.ResponseWriter]. *)
Inductive Response : Type :=
| RequestError (err : Err)
| RequestIgnored (details : string)
| DataResponse (code : Z) (label : string) (data : list Data).

Definition http_StatusOK : Z := 200%Z.

(** ** The payloads *)

(** The structs at the end of the file; [URN_] stands for the field [URN]
    and the fields of [dataPayload] carry the prefix [dp_]. *)
Record userPayload : Type := mkUserPayload
  { URN_ : string; Language : string }.

(** Modelled from the spec: the inbound batch.  The struct [moPayload] is
    used by [receiveMessage] and declared outside this file; section 6 gives
    its body as an instance id, a list of messages (fromMe, time, author,
    senderName, body, caption, type, id) and a list of acknowledgements
    (id, status). *)
Record moMessage : Type := mkMoMessage
  { ID_ : string;
    Body : string;
    Caption : string;
    Type_ : string;
    FromMe : bool;
    Time : Z;
    Author : string;
    SenderName : string }.

Record moAck : Type := mkMoAck
  { ackID : string; ackStatus : string }.

Record moPayload : Type := mkMoPayload
  { InstanceID : string; Messages : list moMessage; Ack : list moAck }.

Record dataPayload : Type := mkDataPayload
  { dp_ID : string;
    dp_Text : string;
    dp_To : string;
    dp_ToNoPlus : string;
    dp_From : string;
    dp_FromNoPlus : string;
    dp_Channel : string;
    dp_Metadata : list (string * list string);
    dp_Attachments : list string }.

(** ** Interfaces of the host and of the libraries *)

(** Every interaction of the handler with its surroundings, in the order in
    which it happens. *)
Inductive Call : Type :=
| CallGetContact (ch : Channel) (urn : URN)
| CallAddLanguageToContact (ch : Channel) (lang : string) (c : Contact)
| CallNewIncomingMsg (ch : Channel) (urn : URN) (text : string)
| CallCheckExternalIDSeen (m : Msg)
| CallWriteMsg (m : Msg)
| CallWriteExternalIDSeen (m : Msg)
| CallNewMsgStatusForExternalID (ch : Channel) (id : string) (v : MsgStatusValue)
| CallNewMsgStatusForID (ch : Channel) (id : MsgID) (v : MsgStatusValue)
| CallWriteMsgStatus (s : MsgStatus)
| CallMakeHTTPRequest (req : HTTPRequest)
| CallRespond (resp : Response).

(** The stores behind [h.Backend()], over a host state [W].  Constructors of
    messages and statuses are not part of it (they are given below); what
    the store decides is a lookup, a write or a failure. *)
Class Backend (W : Type) : Type :=
  { store_GetContact : Channel -> URN -> string -> string -> W -> (Err + Contact) * W;
    store_AddLanguageToContact : Channel -> string -> Contact -> W -> (Err + string) * W;
    store_externalIDSeen : Msg -> W -> bool;
    store_WriteMsg : Msg -> W -> option Err * W;
    store_WriteExternalIDSeen : Msg -> W -> W;
    store_WriteMsgStatus : MsgStatus -> W -> option Err * W }.

(** [utils.MakeHTTPRequest]: the response record and the transport error. *)
Class Transport (W : Type) : Type :=
  { net_MakeHTTPRequest : HTTPRequest -> W -> (RequestResponse * option Err) * W }.

(** The [http.ResponseWriter] of the webhook call: writing a response may
    itself fail, and that error is what the response helpers return. *)
Class ResponseWriter (W : Type) : Type :=
  { resp_Write : Response -> W -> option Err * W }.

(** Library functions the handler calls: request decoding, URN construction
    (gocommon/urns), language tags (x/text/language), JSON and URL syntax. *)
Record Library : Type := mkLibrary
  { DecodeAndValidateJSON_user : HTTPRequest -> Err + userPayload;
    DecodeAndValidateJSON_mo : HTTPRequest -> Err + moPayload;
    NewURNFromParts : string -> string -> string -> string -> Err + URN;
    NewWhatsAppURN : string -> Err + URN;
    Tag : Type;
    language_Parse : string -> Err + Tag;
    Tag_Base_ISO3 : Tag -> string;
    json_Marshal : dataPayload -> Err + string;
    url_Parse_ok : string -> bool;
    MsgID_String : MsgID -> string }.

(** Modelled from the spec: [handlers.NameFromFirstLastUsername], declared
    outside this file ("derive display name from available sender-name
    fields"): the first non-empty choice among "first last", first, last and
    username. *)
Definition NameFromFirstLastUsername (first last username : string) : string :=
  if negb (first =? "") && negb (last =? "") then first ++ " " ++ last
  else if negb (first =? "") then first
  else if negb (last =? "") then last
  else username.

(** [http.NewRequest]: fails on a URL that does not parse. *)
Definition http_NewRequest (lib : Library) (method url body : string)
    : option HTTPRequest :=
  if url_Parse_ok lib url then Some (mkRequest method url [] body) else None.

(** ** The monad of handler code *)

(** The world a handler runs in: the host's state and the calls made so
    far. *)
Record World (W : Type) : Type := mkWorld { host : W; calls : list Call }.

(** How a piece of a Go function body ends: it falls through with a value,
    it executes [return], or it panics. *)
Inductive Outcome (R A : Type) : Type :=
| Normal (a : A)
| Returned (r : R)
| Panicked (msg : string).
Arguments Normal {R A} a.
Arguments Returned {R A} r.
Arguments Panicked {R A} msg.

(** How a whole function ends. *)
Inductive Run (R : Type) : Type :=
| Done (r : R)
| Panic (msg : string).
Arguments Done {R} r.
Arguments Panic {R} msg.

Definition M (W R A : Type) : Type := World W -> Outcome R A * World W.

Definition ret {W R A} (a : A) : M W R A := fun w => (Normal a, w).

Definition bind {W R A B} (m : M W R A) (k : A -> M W R B) : M W R B :=
  fun w =>
    match m w with
    | (Normal a, w') => k a w'
    | (Returned r, w') => (Returned r, w')
    | (Panicked s, w') => (Panicked s, w')
    end.

Definition return_ {W R A} (r : R) : M W R A := fun w => (Returned r, w).

Definition panic {W R A} (msg : string) : M W R A := fun w => (Panicked msg, w).

(** A call to the outside: recorded, then answered by the host. *)
Definition invoke {W R A} (c : Call) (f : W -> A * W) : M W R A :=
  fun w => let (a, h) := f (host w) in (Normal a, mkWorld h (calls w ++ [c])%list).

(** A function: its body runs to its last statement or to a [return]. *)
Definition func {W R} (body : M W R R) : World W -> Run R * World W :=
  fun w =>
    match body w with
    | (Normal r, w') => (Done r, w')
    | (Returned r, w') => (Done r, w')
    | (Panicked s, w') => (Panic s, w')
    end.

(** Calling a function from a body. *)
Definition call {W R A} (f : World W -> Run A * World W) : M W R A :=
  fun w =>
    match f w with
    | (Done a, w') => (Normal a, w')
    | (Panic s, w') => (Panicked s, w')
    end.

Declare Scope go_scope.
Delimit Scope go_scope with go.
Notation "x <- m ;; k" := (bind m (fun x => k))
  (at level 61, m at next level, right associativity) : go_scope.
Notation "' pat <- m ;; k" := (bind m (fun x => match x with pat => k end))
  (at level 61, pat pattern, m at next level, right associativity) : go_scope.
Notation "m ;;; k" := (bind m (fun _ => k))
  (at level 61, right associativity) : go_scope.

(** [for i := range l], threading the variables the body assigns. *)
Fixpoint forRange {W R A S} (body : A -> S -> M W R S) (l : list A) (s : S)
    : M W R S :=
  match l with
  | [] => ret s
  | x :: l' => bind (body x s) (forRange body l')
  end.

(** ** The handler *)

Section Handler.
Context {W : Type} {BE : Backend W} {TR : Transport W} {RW : ResponseWriter W}.
Variable lib : Library.

Local Open Scope go_scope.

(** What both webhook endpoints return: [([]Event, error)]. *)
Definition Result : Type := list Event * option Err.

(** *** The calls to the host *)

Definition GetContact {R} (ch : Channel) (urn : URN) (auth name : string)
    : M W R (Err + Contact) :=
  invoke (CallGetContact ch urn) (store_GetContact ch urn auth name).

Definition AddLanguageToContact {R} (ch : Channel) (lang : string) (c : Contact)
    : M W R (Err + string) :=
  invoke (CallAddLanguageToContact ch lang c) (store_AddLanguageToContact ch lang c).

(** Modelled from the spec: the backend's constructor of an incoming
    message, declared outside this file: a fresh event for the channel,
    the sender and the text, nothing else set. *)
Definition NewIncomingMsg {R} (ch : Channel) (urn : URN) (text : string)
    : M W R Msg :=
  invoke (CallNewIncomingMsg ch urn text)
         (fun h => (mkMsg NilMsgID ch urn text [] [] "" 0%Z "" false, h)).

(** Modelled from the spec: the backend's deduplication check, declared
    outside this file ("a deduplication check against previously seen
    external_ids"): an event whose external id the store has seen is
    marked as already written, and is otherwise left as it is. *)
Definition CheckExternalIDSeen {R} (m : Msg) : M W R Msg :=
  invoke (CallCheckExternalIDSeen m)
         (fun h => (if store_externalIDSeen m h then markAlreadyWritten m else m, h)).

Definition WriteMsg {R} (m : Msg) : M W R (option Err) :=
  invoke (CallWriteMsg m) (store_WriteMsg m).

Definition WriteExternalIDSeen {R} (m : Msg) : M W R unit :=
  invoke (CallWriteExternalIDSeen m) (fun h => (tt, store_WriteExternalIDSeen m h)).

(** Modelled from the spec: the backend's constructors of a status,
    declared outside this file ("create/update message status by external
    id, create status by internal id"): a status with the given value and
    no log. *)
Definition NewMsgStatusForExternalID {R} (ch : Channel) (id : string)
    (v : MsgStatusValue) : M W R MsgStatus :=
  invoke (CallNewMsgStatusForExternalID ch id v)
         (fun h => (mkStatus ch NilMsgID id v [], h)).

Definition NewMsgStatusForID {R} (ch : Channel) (id : MsgID)
    (v : MsgStatusValue) : M W R MsgStatus :=
  invoke (CallNewMsgStatusForID ch id v)
         (fun h => (mkStatus ch id "" v [], h)).

Definition WriteMsgStatus {R} (s : MsgStatus) : M W R (option Err) :=
  invoke (CallWriteMsgStatus s) (store_WriteMsgStatus s).

Definition MakeHTTPRequest {R} (req : HTTPRequest)
    : M W R (RequestResponse * option Err) :=
  invoke (CallMakeHTTPRequest req) (net_MakeHTTPRequest req).

(** Modelled from the spec: the response helpers of the host
    ([handlers.WriteAndLogRequestError], [handlers.WriteAndLogRequestIgnored]
    and [WriteDataResponse], declared outside this file): a request-error
    response, the "ignored" outcome, or the structured acknowledgement with
    its label and its list of per-item data (section 4.4).  Each writes one
    response and returns the error of that write. *)
Definition WriteAndLogRequestError {R} (err : Err) : M W R (option Err) :=
  invoke (CallRespond (RequestError err)) (resp_Write (RequestError err)).

Definition WriteAndLogRequestIgnored {R} (details : string) : M W R (option Err) :=
  invoke (CallRespond (RequestIgnored details)) (resp_Write (RequestIgnored details)).

Definition WriteDataResponse {R} (code : Z) (label : string) (data : list Data)
    : M W R (option Err) :=
  invoke (CallRespond (DataResponse code label data))
         (resp_Write (DataResponse code label data)).

(** [language.MustParse]: panics where [language.Parse] fails. *)
Definition MustParse {R} (s : string) : M W R (Tag lib) :=
  match language_Parse lib s with
  | inr tag => ret tag
  | inl _ => panic "language: tag is not well-formed"
  end.

(** [l[0]] on a slice. *)
Definition index0 {R A} (l : list A) : M W R A :=
  match l with
  | x :: _ => ret x
  | [] => panic "index out of range"
  end.

(** *** registerUser (lines 38-77) *)

Definition registerUser (channel : Channel) (r : HTTPRequest)
    : World W -> Run Result * World W :=
  func (
    match DecodeAndValidateJSON_user lib r with
    | inl err =>
        e <- WriteAndLogRequestError err ;; return_ ([], e)
    | inr payload =>
        (* no URN? ignore this *)
        if URN_ payload =? "" then
          e <- WriteAndLogRequestIgnored "Ignoring request, no identifier" ;;
          return_ ([], e)
        else
          let data : list Data := [] in
          scheme <- index0 (ch_schemes channel) ;;
          match NewURNFromParts lib scheme (URN_ payload) "" "" with
          | inl errURN =>
              e <- WriteAndLogRequestError errURN ;; return_ ([], e)
          | inr urn =>
              c <- GetContact channel urn "" "" ;;
              match c with
              | inl errGetContact =>
                  e <- WriteAndLogRequestError errGetContact ;; return_ ([], e)
              | inr contact =>
                  tag <- MustParse (Language payload) ;;
                  l <- AddLanguageToContact channel (Tag_Base_ISO3 lib tag) contact ;;
                  match l with
                  | inl errLang =>
                      e <- WriteAndLogRequestError errLang ;; return_ ([], e)
                  | inr _ =>
                      let data := (data ++ [EventRegisteredContactData (contact_uuid contact)])%list in
                      e <- WriteDataResponse http_StatusOK "Events Handled" data ;;
                      ret ([], e)
                  end
              end
          end
    end).

(** *** receiveMessage (lines 80-174) *)

(** The value of [ev] at line 125 and of [event] at line 132, as functions
    of the entry, of its URN and of the answer of the store's lookup.
    [receiveMessage_message_ok] below shows that these are the values the
    loop body computes. *)
Definition receiveMessage_ev (channel : Channel) (urn : URN)
    (message : moMessage) : Msg :=
  let text := if Type_ message =? "image" then Caption message else Body message in
  WithContactName
    (WithReceivedOn
       (WithExternalID (mkMsg NilMsgID channel urn text [] [] "" 0%Z "" false)
                       (ID_ message))
       (Time message))
    (NameFromFirstLastUsername (SenderName message) "" "").

Definition receiveMessage_event (channel : Channel) (urn : URN)
    (message : moMessage) (seen : bool) : Msg :=
  let ev := receiveMessage_ev channel urn message in
  let event := if seen then markAlreadyWritten ev else ev in
  if Type_ message =? "image" then WithAttachment event (Body message) else event.

(** The status value of an acknowledgement (lines 146-152). *)
Definition receiveMessage_status (ack : moAck) : MsgStatusValue :=
  if ackStatus ack =? "sent" then MsgSent
  else if ackStatus ack =? "delivered" then MsgDelivered
  else MsgQueued.

(** The body of the loop over [payload.Messages] (lines 99-141); [acc]
    holds the two slices the loop appends to, [events] and [data]. *)
Definition receiveMessage_message (channel : Channel) (message : moMessage)
    (acc : list Event * list Data) : M W Result (list Event * list Data) :=
  let '(events, data) := acc in
  if negb (FromMe message) then
    let date := Time message in
    let author := Author message in
    let contactPhoneNumber := strings_Replace1 author "@c.us" "" in
    match NewWhatsAppURN lib contactPhoneNumber with
    | inl errURN =>
        e <- WriteAndLogRequestError errURN ;; return_ ([], e)
    | inr urn =>
        let name := NameFromFirstLastUsername (SenderName message) "" "" in
        (* our text is either "text" or "caption" (or empty) *)
        let text := Body message in
        let isAttachment := false in
        let '(text, isAttachment) :=
          if Type_ message =? "image" then (Caption message, true)
          else (text, isAttachment) in
        m <- NewIncomingMsg channel urn text ;;
        let ev := WithContactName (WithReceivedOn (WithExternalID m (ID_ message)) date) name in
        event <- CheckExternalIDSeen ev ;;
        let event := if isAttachment then WithAttachment event (Body message) else event in
        errMsg <- WriteMsg event ;;
        match errMsg with
        | Some e => return_ ([], Some e)
        | None =>
            WriteExternalIDSeen event ;;;
            ret ((events ++ [EvMsg event])%list, (data ++ [MsgReceiveData event])%list)
        end
    end
  else ret (events, data).

(** The body of the loop over [payload.Ack] (lines 145-169). *)
Definition receiveMessage_ack (channel : Channel) (ack : moAck)
    (acc : list Event * list Data) : M W Result (list Event * list Data) :=
  let '(events, data) := acc in
  let status := receiveMessage_status ack in
  event <- NewMsgStatusForExternalID channel (ackID ack) status ;;
  err <- WriteMsgStatus event ;;
  match err with
  | Some ErrMsgNotFound =>
      (* we don't know about this message, just tell them we ignored it *)
      ret (events, (data ++ [InfoData "message not found, ignored"])%list)
  | Some e => return_ ([], Some e)
  | None => ret ((events ++ [EvStatus event])%list, (data ++ [StatusData event])%list)
  end.

(** The statements of [receiveMessage] after decoding (lines 87-172). *)
Definition receiveMessage_payload (channel : Channel) (payload : moPayload)
    : M W Result Result :=
  (* no message? ignore this *)
  if InstanceID payload =? "" then
    e <- WriteAndLogRequestIgnored "Ignoring request, no message" ;;
    return_ ([], e)
  else
    acc <- forRange (receiveMessage_message channel) (Messages payload) ([], []) ;;
    '(events, data) <- forRange (receiveMessage_ack channel) (Ack payload) acc ;;
    e <- WriteDataResponse http_StatusOK "Events Handled" data ;;
    ret (events, e).

Definition receiveMessage (channel : Channel) (r : HTTPRequest)
    : World W -> Run Result * World W :=
  func (
    match DecodeAndValidateJSON_mo lib r with
    | inl err =>
        e <- WriteAndLogRequestError err ;; return_ ([], e)
    | inr payload => receiveMessage_payload channel payload
    end).

(** *** sendMsgPart (lines 176-192) and SendMsg (lines 195-239) *)

Definition sendMsgPart (msg : Msg) (apiURL : string) (payload : dataPayload)
    : World W -> Run (string * ChannelLog * option Err) * World W :=
  func (
    match json_Marshal lib payload with
    | inl err =>
        let log := NewChannelLog "unable to build JSON body" (msg_channel msg) (msg_id msg) err in
        return_ ("", log, Some err)
    | inr jsonBody =>
        match http_NewRequest lib "POST" apiURL jsonBody with
        | None => panic "nil pointer dereference"
        | Some req =>
            let req := Header_Set req "Content-Type" "application/json" in
            let req := Header_Set req "Accept" "application/json" in
            '(rr, err) <- MakeHTTPRequest req ;;
            (* build our channel log *)
            let log := WithError (NewChannelLogFromRR "Message Sent" (msg_channel msg) (msg_id msg) rr)
                                 "Message Send Error" err in
            ret ("", log, None)
        end
    end).

(** The payload [SendMsg] builds before sending (lines 196-218). *)
Definition SendMsg_data (msg : Msg) : dataPayload :=
  let address := ch_address (msg_channel msg) in
  let data :=
    mkDataPayload (MsgID_String lib (msg_id msg))
                  (msg_text msg)
                  (urn_path (msg_urn msg))
                  (strings_Replace1 (urn_path (msg_urn msg)) "+" "")
                  address
                  (strings_Replace1 address "+" "")
                  (strings_Replace1 address "+" "")
                  [] [] in
  let data :=
    if (0 <? List.length (msg_quickReplies msg))%nat then
      mkDataPayload (dp_ID data) (dp_Text data) (dp_To data) (dp_ToNoPlus data)
                    (dp_From data) (dp_FromNoPlus data) (dp_Channel data)
                    [("quick_replies", msg_quickReplies msg)] (dp_Attachments data)
    else data in
  if (0 <? List.length (msg_attachments msg))%nat then
    mkDataPayload (dp_ID data) (dp_Text data) (dp_To data) (dp_ToNoPlus data)
                  (dp_From data) (dp_FromNoPlus data) (dp_Channel data)
                  (dp_Metadata data) (msg_attachments msg)
  else data.

Definition SendMsg (msg : Msg)
    : World W -> Run (MsgStatus * option Err) * World W :=
  func (
    let address := ch_address (msg_channel msg) in
    let data := SendMsg_data msg in
    (* the status that will be written for this message *)
    status <- NewMsgStatusForID (msg_channel msg) (msg_id msg) MsgErrored ;;
    (* whether we encountered any errors sending any parts *)
    let hasError := true in
    '(status, hasError) <-
      (if negb (msg_text msg =? "") then
         '(externalID, log, err) <- call (sendMsgPart msg address data) ;;
         let status := SetExternalID status externalID in
         let hasError := match err with Some _ => true | None => false end in
         let status := AddLog status log in
         ret (status, hasError)
       else ret (status, hasError)) ;;
    let status := if negb hasError then SetStatus status MsgWired else status in
    ret (status, None)).

End Handler.

(** ** An in-memory host *)

Module Mem.

(** Modelled from the spec: the host behind the handler, which lives
    outside this file.  Section 6 names its stores (get-or-create contact,
    attach language, create incoming message, check/record
    external-id-seen, update message status by external id); this is the
    smallest host with those stores.  A message marked as already written
    is not persisted again, a status for an unknown external id is
    answered with [ErrMsgNotFound], and [failing] and [net_up] let a run
    meet a persistence failure or a transport failure. *)
Record State : Type := mkState
  { contacts : list (URN * Contact);
    languages : list (string * string);
    persisted : list Msg;
    seen : list string;
    outbound : list string;
    statuses : list MsgStatus;
    responses : list Response;
    requests : list HTTPRequest;
    failing : list string;
    net_up : bool }.

Definition URN_eqb (a b : URN) : bool :=
  (urn_scheme a =? urn_scheme b) && (urn_path a =? urn_path b).

Definition mem (x : string) (l : list string) : bool :=
  existsb (String.eqb x) l.

Fixpoint lookup (u : URN) (l : list (URN * Contact)) : option Contact :=
  match l with
  | [] => None
  | (u', c) :: l' => if URN_eqb u u' then Some c else lookup u l'
  end.

Definition getContact (ch : Channel) (u : URN) (auth name : string) (s : State)
    : (Err + Contact) * State :=
  match lookup u (contacts s) with
  | Some c => (inr c, s)
  | None =>
      let c := mkContact ("contact:" ++ urn_path u) in
      (inr c,
       mkState ((u, c) :: contacts s) (languages s) (persisted s) (seen s)
               (outbound s) (statuses s) (responses s) (requests s)
               (failing s) (net_up s))
  end.

Definition addLanguageToContact (ch : Channel) (lang : string) (c : Contact)
    (s : State) : (Err + string) * State :=
  (inr lang,
   mkState (contacts s) ((contact_uuid c, lang) :: languages s) (persisted s)
           (seen s) (outbound s) (statuses s) (responses s) (requests s)
           (failing s) (net_up s)).

Definition externalIDSeen (m : Msg) (s : State) : bool :=
  mem (msg_externalID m) (seen s).

Definition writeMsg (m : Msg) (s : State) : option Err * State :=
  if msg_alreadyWritten m then (None, s)
  else if mem (msg_externalID m) (failing s)
  then (Some (ErrOther "unable to queue message"), s)
  else (None,
        mkState (contacts s) (languages s) (persisted s ++ [m]) (seen s)
                (outbound s) (statuses s) (responses s) (requests s)
                (failing s) (net_up s)).

Definition writeExternalIDSeen (m : Msg) (s : State) : State :=
  mkState (contacts s) (languages s) (persisted s) (msg_externalID m :: seen s)
          (outbound s) (statuses s) (responses s) (requests s)
          (failing s) (net_up s).

Definition writeMsgStatus (st : MsgStatus) (s : State) : option Err * State :=
  if mem (status_externalID st) (failing s)
  then (Some (ErrOther "unable to write status"), s)
  else if mem (status_externalID st) (outbound s)
  then (None,
        mkState (contacts s) (languages s) (persisted s) (seen s)
                (outbound s) (statuses s ++ [st]) (responses s) (requests s)
                (failing s) (net_up s))
  else (Some ErrMsgNotFound, s).

Definition makeHTTPRequest (req : HTTPRequest) (s : State)
    : (RequestResponse * option Err) * State :=
  let s' := mkState (contacts s) (languages s) (persisted s) (seen s)
                    (outbound s) (statuses s) (responses s)
                    (requests s ++ [req]) (failing s) (net_up s) in
  if net_up s then ((mkRR req 200 "", None), s')
  else ((mkRR req 0 "", Some (ErrOther "connection refused")), s').

Definition write (resp : Response) (s : State) : option Err * State :=
  (None,
   mkState (contacts s) (languages s) (persisted s) (seen s)
           (outbound s) (statuses s) (responses s ++ [resp]) (requests s)
           (failing s) (net_up s)).

#[export] Instance backend : Backend State :=
  {| store_GetContact := getContact;
     store_AddLanguageToContact := addLanguageToContact;
     store_externalIDSeen := externalIDSeen;
     store_WriteMsg := writeMsg;
     store_WriteExternalIDSeen := writeExternalIDSeen;
     store_WriteMsgStatus := writeMsgStatus |}.

#[export] Instance transport : Transport State :=
  {| net_MakeHTTPRequest := makeHTTPRequest |}.

#[export] Instance writer : ResponseWriter State :=
  {| resp_Write := write |}.

(** How many persisted messages carry the external id [x]. *)
Definition count (x : string) (l : list Msg) : nat :=
  List.length (filter (fun m => msg_externalID m =? x) l).

(** *** A small library, for running the handler *)

Definition is_digit (c : ascii) : bool :=
  let n := nat_of_ascii c in (48 <=? n)%nat && (n <=? 57)%nat.

Fixpoint all_chars (p : ascii -> bool) (s : string) : bool :=
  match s with
  | EmptyString => true
  | String c s' => p c && all_chars p s'
  end.

Definition is_printable (c : ascii) : bool :=
  let n := nat_of_ascii c in (32 <=? n)%nat && negb (n =? 127)%nat.

(** A library that decodes requests with [up] (registration) and [mp]
    (inbound batch); it knows a few language tags, takes whatsapp
    identifiers made of digits, and rejects URLs with control bytes. *)
Definition library (up : HTTPRequest -> Err + userPayload)
    (mp : HTTPRequest -> Err + moPayload) : Library :=
  {| DecodeAndValidateJSON_user := up;
     DecodeAndValidateJSON_mo := mp;
     NewURNFromParts := fun scheme path query display =>
       if (scheme =? "") || (path =? "")
       then inl (ErrOther "scheme or path cannot be empty")
       else inr (mkURN scheme path query display);
     NewWhatsAppURN := fun identifier =>
       if negb (identifier =? "") && all_chars is_digit identifier
       then inr (mkURN "whatsapp" identifier "" "")
       else inl (ErrOther "invalid whatsapp id");
     Tag := string;
     language_Parse := fun s =>
       if s =? "en" then inr "eng"
       else if s =? "en-US" then inr "eng"
       else if s =? "pt" then inr "por"
       else if s =? "pt-BR" then inr "por"
       else if s =? "es" then inr "spa"
       else inl (ErrOther "language: tag is not well-formed");
     Tag_Base_ISO3 := fun t => t;
     json_Marshal := fun p =>
       inr (dp_ID p ++ "|" ++ dp_Text p ++ "|" ++ dp_To p ++ "|" ++ dp_From p);
     url_Parse_ok := all_chars is_printable;
     MsgID_String := fun i => NilZero.string_of_int (Z.to_int i) |}.

Definition start (s : State) : World State := mkWorld s [].

(** The store is consistent when an external id recorded as seen has
    exactly one persisted message, and an id not recorded has none. *)
Definition consistent (s : State) : Prop :=
  forall x, count x (persisted s) = if mem x (seen s) then 1 else 0.

End Mem.

(** ** Observations on traces and events *)

(** The events handed to [WriteMsg], in order. *)
Fixpoint written (cs : list Call) : list Msg :=
  match cs with
  | [] => []
  | CallWriteMsg m :: cs' => m :: written cs'
  | _ :: cs' => written cs'
  end.

(** The responses written, in order. *)
Fixpoint responded (cs : list Call) : list Response :=
  match cs with
  | [] => []
  | CallRespond r :: cs' => r :: responded cs'
  | _ :: cs' => responded cs'
  end.

(** The requests sent over HTTP, in order. *)
Fixpoint posted (cs : list Call) : list HTTPRequest :=
  match cs with
  | [] => []
  | CallMakeHTTPRequest r :: cs' => r :: posted cs'
  | _ :: cs' => posted cs'
  end.

(** The request [sendMsgPart] posts to [url] for a serialised payload. *)
Definition post_request (url body : string) : HTTPRequest :=
  Header_Set (Header_Set (mkRequest "POST" url [] body)
                         "Content-Type" "application/json")
             "Accept" "application/json".

(** The calls that reach the contact store. *)
Definition is_contact_call (c : Call) : bool :=
  match c with
  | CallGetContact _ _ | CallAddLanguageToContact _ _ _ => true
  | _ => false
  end.

(** The incoming-message events among the events of a call. *)
Fixpoint msgEvents (evs : list Event) : list Msg :=
  match evs with
  | [] => []
  | EvMsg m :: evs' => m :: msgEvents evs'
  | EvStatus _ :: evs' => msgEvents evs'
  end.

(** What an event owes to the entry it was built from: the entry's id, and
    either caption and body-as-attachment (type "image") or body alone. *)
Definition carries (message : moMessage) (ev : Msg) : Prop :=
  msg_externalID ev = ID_ message /\
  if Type_ message =? "image"
  then msg_text ev = Caption message /\ msg_attachments ev = [Body message]
  else msg_text ev = Body message /\ msg_attachments ev = [].

(** The responses of a webhook call that turned the request down: nothing
    written, a request error, or the "ignored" answer. *)
Definition refused (rs : list Response) : Prop :=
  rs = [] \/ (exists e, rs = [RequestError e]) \/ (exists d, rs = [RequestIgnored d]).

(** The entries of a batch that are not echoes of the account's own
    traffic. *)
Definition notFromMe (messages : list moMessage) : list moMessage :=
  filter (fun m => negb (FromMe m)) messages.

(** The first [c] of [s] removed; [s] itself when [c] does not occur. *)
Fixpoint remove_first (c : ascii) (s : string) : string :=
  match s with
  | EmptyString => EmptyString
  | String d s' => if Ascii.eqb c d then s' else String d (remove_first c s')
  end.

(** The statuses handed to [WriteMsgStatus], in order. *)
Fixpoint status_written (cs : list Call) : list MsgStatus :=
  match cs with
  | [] => []
  | CallWriteMsgStatus st :: cs' => st :: status_written cs'
  | _ :: cs' => status_written cs'
  end.

(** The status a status write carries for an acknowledgement: the one built
    at line 154 from the channel, the acknowledgement's id and the value of
    lines 146-152. *)
Definition acknowledges (channel : Channel) (ack : moAck) (st : MsgStatus) : Prop :=
  st = mkStatus channel NilMsgID (ackID ack) (receiveMessage_status ack) [].

(** The world after the response [resp] was written from host state [h],
    the calls so far being [cs]. *)
Definition answered {W : Type} {RW : ResponseWriter W} (resp : Response)
    (h : W) (cs : list Call) : World W :=
  mkWorld (snd (resp_Write resp h)) (cs ++ [CallRespond resp]).

(** Calls that neither post over HTTP nor reach the contact store. *)
Definition inbound_only (cs : list Call) : Prop :=
  posted cs = [] /\ existsb is_contact_call cs = false.

(** Whether the byte [c] occurs in [s]. *)
Fixpoint has_char (c : ascii) (s : string) : bool :=
  match s with
  | EmptyString => false
  | String d s' => Ascii.eqb c d || has_char c s'
  end.

(** [strings.Contains(s, old)]: [old] starts at some position of [s]. *)
Fixpoint strings_Contains (s old : string) : bool :=
  String.prefix old s ||
  match s with
  | EmptyString => false
  | String _ s' => strings_Contains s' old
  end.

(** ** Concrete inputs *)

Module Example.

Definition channel : Channel :=
  mkChannel "c0ffee" "https://ws.example.com/send?to=a+b" ["ws"].

Definition request : HTTPRequest := mkRequest "POST" "/c/ws/c0ffee/receive" [] "".
Definition request' : HTTPRequest := mkRequest "POST" "/c/ws/c0ffee/receive" [] "again".

Definition text_entry : moMessage :=
  mkMoMessage "id1" "hello" "" "chat" false 1600000000 "5511999990000@c.us" "Bob".
Definition image_entry : moMessage :=
  mkMoMessage "id2" "https://img.example.com/1.jpg" "look" "image" false
              1600000001 "5511999990000@c.us" "Bob".
Definition echo_entry : moMessage :=
  mkMoMessage "id3" "sent by us" "" "chat" true 1600000002 "5511999990000@c.us" "".

Definition unknown_ack : moAck := mkMoAck "nobody" "sent".
Definition known_ack : moAck := mkMoAck "out1" "delivered".
Definition broken_ack : moAck := mkMoAck "out2" "sent".

Definition batch : moPayload :=
  mkMoPayload "instance" [text_entry; echo_entry; image_entry]
              [unknown_ack; known_ack].

Definition batch_without_echo : moPayload :=
  mkMoPayload "instance" [text_entry; image_entry] [unknown_ack; known_ack].

(** A library that decodes every inbound request to [batch], except
    [request'], which it decodes to [batch_without_echo]; and every
    registration request to [up]. *)
Definition lib (up : userPayload) : Library :=
  Mem.library (fun _ => inr up)
              (fun r => if req_body r =? "again" then inr batch_without_echo
                        else inr batch).

Definition no_urn : userPayload := mkUserPayload "" "en".
Definition bad_language : userPayload := mkUserPayload "5511999990000" "not a tag!".

(** A host that knows the outbound message "out1". *)
Definition host0 : Mem.State :=
  Mem.mkState [] [] [] [] ["out1"] [] [] [] [] true.

(** The same host, unable to persist "id2" or to update "out2". *)
Definition host_failing : Mem.State :=
  Mem.mkState [] [] [] [] ["out1"] [] [] [] ["id2"; "out2"] true.

(** The same host, with the network down. *)
Definition host_offline : Mem.State :=
  Mem.mkState [] [] [] [] ["out1"] [] [] [] [] false.

Definition recipient : URN := mkURN "ws" "+15551234567" "" "".

Definition outgoing : Msg :=
  mkMsg 7%Z channel recipient "hi" [] [] "" 0%Z "" false.

Definition attachment_only : Msg :=
  mkMsg 8%Z channel recipient "" ["image/jpeg:https://img.example.com/2.jpg"]
        ["Yes"; "No"] "" 0%Z "" false.

End Example.

(** ** More concrete inputs *)

Module Cases.

(** A host whose stores answer as its three switches say. *)
Record Switches : Type := mkSwitches
  { contact_ok : bool; language_ok : bool; writes_ok : bool }.

#[export] Instance backend : Backend Switches :=
  {| store_GetContact := fun _ urn _ _ s =>
       (if contact_ok s then inr (mkContact ("contact:" ++ urn_path urn))
        else inl (ErrOther "contact store is down"), s);
     store_AddLanguageToContact := fun _ lang _ s =>
       (if language_ok s then inr lang else inl (ErrOther "language not stored"), s);
     store_externalIDSeen := fun _ _ => false;
     store_WriteMsg := fun _ s =>
       (if writes_ok s then None else Some (ErrOther "unable to queue message"), s);
     store_WriteExternalIDSeen := fun _ s => s;
     store_WriteMsgStatus := fun _ s =>
       (if writes_ok s then None else Some (ErrOther "unable to write status"), s) |}.

#[export] Instance writer : ResponseWriter Switches :=
  {| resp_Write := fun _ s => (None, s) |}.

(** A library that decodes every request to the given payloads. *)
Definition lib (up : Err + userPayload) (mp : Err + moPayload) : Library :=
  Mem.library (fun _ => up) (fun _ => mp).


Definition undecodable : Library :=
  lib (inl (ErrOther "unexpected end of JSON input"))
      (inl (ErrOther "unexpected end of JSON input")).

Definition good_user : userPayload := mkUserPayload "5511999990000" "pt-BR".

Definition registration : Library := lib (inr good_user) (inl ErrMsgNotFound).

Definition schemeless : Channel :=
  mkChannel "c0ffee" "https://ws.example.com/send" [].

Definition nameless_scheme : Channel :=
  mkChannel "c0ffee" "https://ws.example.com/send" [""].

(** An address with a DEL byte, which no URL may hold. *)
Definition broken_channel : Channel :=
  mkChannel "c0ffee" (String (ascii_of_nat 127) "ws.example.com") ["ws"].

Definition unsendable : Msg :=
  mkMsg 9%Z broken_channel Example.recipient "hi" [] [] "" 0%Z "" false.

Definition plus_less : Msg :=
  mkMsg 10%Z (mkChannel "c0ffee" "https://ws.example.com/send" ["ws"])
        (mkURN "ws" "15551234567" "" "") "hi" [] [] "" 0%Z "" false.

Definition bad_entry : moMessage :=
  mkMoMessage "id4" "hello" "" "chat" false 1600000003 "status@broadcast" "Eve".

Definition batch_bad_author : moPayload :=
  mkMoPayload "instance" [Example.text_entry; bad_entry; Example.image_entry]
              [Example.known_ack].

Definition batch_broken_ack : moPayload :=
  mkMoPayload "instance" [Example.text_entry]
              [Example.known_ack; Example.broken_ack; Example.unknown_ack].

Definition batch_no_instance : moPayload :=
  mkMoPayload "" [Example.text_entry] [Example.known_ack].

Definition all_up : Switches := mkSwitches true true true.
Definition no_contacts : Switches := mkSwitches false true true.
Definition no_languages : Switches := mkSwitches true false true.

End Cases.

(** * Properties *)

(** ** The monad and the loops *)

Lemma forRange_app {W R A S} (body : A -> S -> M W R S) (l1 l2 : list A)
    (s : S) (w : World W) :
  forRange body (l1 ++ l2) s w = bind (forRange body l1 s) (forRange body l2) w.
Proof.
  revert s w; induction l1 as [|x l1 IH]; intros s w; simpl.
  - reflexivity.
  - unfold bind.
    destruct (body x s w) as [[a|r|msg] w']; try reflexivity.
    rewrite IH. reflexivity.
Qed.

Lemma written_app (a b : list Call) : written (a ++ b) = (written a ++ written b)%list.
Proof.
  induction a as [|c a IH]; simpl; [reflexivity|].
  destruct c; simpl; rewrite IH; reflexivity.
Qed.

Lemma responded_app (a b : list Call) :
  responded (a ++ b) = (responded a ++ responded b)%list.
Proof.
  induction a as [|c a IH]; simpl; [reflexivity|].
  destruct c; simpl; rewrite IH; reflexivity.
Qed.

Lemma posted_app (a b : list Call) : posted (a ++ b) = (posted a ++ posted b)%list.
Proof.
  induction a as [|c a IH]; simpl; [reflexivity|].
  destruct c; simpl; rewrite IH; reflexivity.
Qed.

Lemma msgEvents_app (a b : list Event) :
  msgEvents (a ++ b) = (msgEvents a ++ msgEvents b)%list.
Proof.
  induction a as [|e a IH]; simpl; [reflexivity|].
  destruct e; simpl; rewrite IH; reflexivity.
Qed.

(** ** registerUser *)

Section RegisterUser.
Context {W : Type} {BE : Backend W} {TR : Transport W} {RW : ResponseWriter W}.
Variable lib : Library.

(** C3.  A registration request whose urn is empty is answered with the
    "ignored" response and nothing else happens: the only call of the
    handler is that response (so neither GetContact nor
    AddLanguageToContact is invoked, and the stores are left to the
    response writer alone), no event is returned, and the error returned
    is the one of writing the response. *)
Theorem registerUser_empty_urn_ignored
    (channel : Channel) (r : HTTPRequest) (payload : userPayload) (w : World W) :
  DecodeAndValidateJSON_user lib r = inr payload ->
  URN_ payload = "" ->
  let ignored := RequestIgnored "Ignoring request, no identifier" in
  registerUser lib channel r w =
    (Done ([], fst (resp_Write ignored (host w))),
     mkWorld (snd (resp_Write ignored (host w)))
             (calls w ++ [CallRespond ignored])) /\
  existsb is_contact_call (calls (snd (registerUser lib channel r w))) =
    existsb is_contact_call (calls w).
Proof.
  intros Hdec Hurn ignored.
  assert (E : registerUser lib channel r w =
    (Done ([], fst (resp_Write ignored (host w))),
     mkWorld (snd (resp_Write ignored (host w)))
             (calls w ++ [CallRespond ignored]))).
  { unfold registerUser, func. rewrite Hdec, Hurn. simpl.
    unfold bind, WriteAndLogRequestIgnored, invoke, return_. fold ignored.
    destruct (resp_Write ignored (host w)) as [e h]. reflexivity. }
  split; [exact E|].
  rewrite E. simpl. rewrite existsb_app. simpl. apply orb_false_r.
Qed.

(** C2 (what the code does).  With a non-empty urn, a URN that builds and
    a contact that the backend returns, a language that does not parse
    makes [registerUser] panic: no response at all is written, and the
    contact has already been fetched or created. *)
Theorem registerUser_malformed_language_panics
    (channel : Channel) (r : HTTPRequest) (payload : userPayload) (w : World W)
    (scheme : string) (rest : list string) (urn : URN) (contact : Contact)
    (h' : W) (e : Err) :
  DecodeAndValidateJSON_user lib r = inr payload ->
  URN_ payload <> "" ->
  ch_schemes channel = scheme :: rest ->
  NewURNFromParts lib scheme (URN_ payload) "" "" = inr urn ->
  store_GetContact channel urn "" "" (host w) = (inr contact, h') ->
  language_Parse lib (Language payload) = inl e ->
  registerUser lib channel r w =
    (Panic "language: tag is not well-formed",
     mkWorld h' (calls w ++ [CallGetContact channel urn])) /\
  responded (calls (snd (registerUser lib channel r w))) = responded (calls w).
Proof.
  intros Hdec Hurn Hsch Hnew Hget Hparse.
  assert (E : registerUser lib channel r w =
    (Panic "language: tag is not well-formed",
     mkWorld h' (calls w ++ [CallGetContact channel urn]))).
  { unfold registerUser, func. rewrite Hdec.
    apply String.eqb_neq in Hurn. rewrite Hurn, Hsch. simpl.
    unfold bind at 1. unfold ret at 1. rewrite Hnew.
    unfold bind at 1. unfold GetContact, invoke. rewrite Hget.
    unfold bind, MustParse. rewrite Hparse. reflexivity. }
  split; [exact E|].
  rewrite E. simpl. rewrite responded_app. simpl. apply app_nil_r.
Qed.

End RegisterUser.

(** ** SendMsg *)

Lemma substring_all (s : string) : String.substring 0 (String.length s) s = s.
Proof.
  induction s as [|c s IH]; simpl; [reflexivity|]. rewrite IH. reflexivity.
Qed.

(** Replacing the first "+" by nothing removes the first "+". *)
Lemma strings_Replace1_plus (s : string) :
  strings_Replace1 s "+" "" = remove_first "+" s.
Proof.
  induction s as [|c s IH]; [reflexivity|].
  cbn [strings_Replace1 remove_first String.prefix String.length].
  destruct (ascii_dec "+" c) as [<-|Hne].
  - rewrite Ascii.eqb_refl.
    replace (String.prefix "" s) with true by (destruct s; reflexivity).
    replace (S (String.length s) - 1) with (String.length s) by lia.
    cbn [String.append String.substring].
    apply substring_all.
  - apply Ascii.eqb_neq in Hne. rewrite Hne, IH. reflexivity.
Qed.

Section Send.
Context {W : Type} {BE : Backend W} {TR : Transport W} {RW : ResponseWriter W}.
Variable lib : Library.

Lemma SendMsg_data_fields (msg : Msg) :
  let d := SendMsg_data lib msg in
  dp_Text d = msg_text msg /\
  dp_To d = urn_path (msg_urn msg) /\
  dp_ToNoPlus d = strings_Replace1 (urn_path (msg_urn msg)) "+" "" /\
  dp_From d = ch_address (msg_channel msg) /\
  dp_FromNoPlus d = strings_Replace1 (ch_address (msg_channel msg)) "+" "" /\
  dp_Channel d = strings_Replace1 (ch_address (msg_channel msg)) "+" "" /\
  dp_Attachments d = msg_attachments msg /\
  dp_Metadata d = match msg_quickReplies msg with
                  | [] => []
                  | _ :: _ => [("quick_replies", msg_quickReplies msg)]
                  end.
Proof.
  unfold SendMsg_data.
  destruct (msg_quickReplies msg) as [|q qs];
    destruct (msg_attachments msg) as [|a l]; simpl; repeat split; reflexivity.
Qed.

(** C1 (what the code does).  For a message with non-empty text whose
    payload serialises and whose channel address parses as a URL,
    [SendMsg] issues exactly one HTTP POST and returns no error; but the
    status it returns is "wired" whatever the transport answered: the
    transport error [err] only reaches the log attached to the status. *)
Theorem SendMsg_wired_whatever_transport
    (msg : Msg) (w : World W) (body : string)
    (rr : RequestResponse) (err : option Err) (h' : W) :
  msg_text msg <> "" ->
  json_Marshal lib (SendMsg_data lib msg) = inr body ->
  url_Parse_ok lib (ch_address (msg_channel msg)) = true ->
  let ch := msg_channel msg in
  let req := post_request (ch_address ch) body in
  let log := WithError (NewChannelLogFromRR "Message Sent" ch (msg_id msg) rr)
                       "Message Send Error" err in
  net_MakeHTTPRequest req (host w) = ((rr, err), h') ->
  SendMsg lib msg w =
    (Done (mkStatus ch (msg_id msg) "" MsgWired [log], None),
     mkWorld h' (calls w ++ [CallNewMsgStatusForID ch (msg_id msg) MsgErrored;
                             CallMakeHTTPRequest req])).
Proof.
  intros Htext Hjson Hurl ch req log Hnet.
  apply String.eqb_neq in Htext.
  unfold SendMsg, func, bind, NewMsgStatusForID, invoke. simpl host.
  rewrite Htext. simpl negb. cbv iota.
  unfold call, sendMsgPart, func. rewrite Hjson.
  unfold http_NewRequest. rewrite Hurl.
  unfold bind, MakeHTTPRequest, invoke. simpl host. simpl calls.
  fold ch. fold (post_request (ch_address ch) body). fold req.
  cbn [negb host calls]. rewrite Hnet.
  simpl. rewrite <- app_assoc. reflexivity.
Qed.

(** C10.  A message whose text is empty is not sent: the only call of
    [SendMsg] is the construction of the status, no HTTP request is
    made, the status returned is still "errored" and carries no log, and
    the error returned is nil.  The attachments and quick replies were
    placed in the payload all the same. *)
Theorem SendMsg_empty_text_sends_nothing (msg : Msg) (w : World W) :
  msg_text msg = "" ->
  let ch := msg_channel msg in
  SendMsg lib msg w =
    (Done (mkStatus ch (msg_id msg) "" MsgErrored [], None),
     mkWorld (host w) (calls w ++ [CallNewMsgStatusForID ch (msg_id msg) MsgErrored])) /\
  posted (calls (snd (SendMsg lib msg w))) = posted (calls w) /\
  dp_Attachments (SendMsg_data lib msg) = msg_attachments msg /\
  dp_Metadata (SendMsg_data lib msg) =
    match msg_quickReplies msg with
    | [] => []
    | _ :: _ => [("quick_replies", msg_quickReplies msg)]
    end.
Proof.
  intros Htext ch.
  assert (E : SendMsg lib msg w =
    (Done (mkStatus ch (msg_id msg) "" MsgErrored [], None),
     mkWorld (host w) (calls w ++ [CallNewMsgStatusForID ch (msg_id msg) MsgErrored]))).
  { unfold SendMsg, func, bind, NewMsgStatusForID, invoke.
    rewrite Htext. reflexivity. }
  split; [exact E|].
  split; [rewrite E; simpl; rewrite posted_app; simpl; apply app_nil_r|].
  destruct (SendMsg_data_fields msg) as (_ & _ & _ & _ & _ & _ & Ha & Hm).
  split; assumption.
Qed.

(** C9 (amended).  The "no-plus" fields of the payload are the recipient
    path and the channel address with their first "+" removed, wherever it
    stands; for an address that starts with "+" that is the leading one,
    so "+15551234567" gives "15551234567". *)
Theorem SendMsg_data_first_plus_removed (msg : Msg) :
  let d := SendMsg_data lib msg in
  let to := urn_path (msg_urn msg) in
  let from := ch_address (msg_channel msg) in
  (dp_ToNoPlus d = remove_first "+" to /\
   dp_FromNoPlus d = remove_first "+" from /\
   dp_Channel d = remove_first "+" from) /\
  (forall s, to = String "+" s -> dp_ToNoPlus d = s) /\
  (forall s, from = String "+" s -> dp_FromNoPlus d = s /\ dp_Channel d = s).
Proof.
  intros d to from.
  destruct (SendMsg_data_fields msg) as (_ & _ & Ht & _ & Hf & Hc & _).
  fold d in Ht, Hf, Hc. fold to in Ht. fold from in Hf, Hc.
  rewrite strings_Replace1_plus in Ht, Hf, Hc.
  split; [repeat split; assumption|].
  split.
  - intros s Hs. rewrite Ht, Hs. reflexivity.
  - intros s Hs. rewrite Hf, Hc, Hs. split; reflexivity.
Qed.

End Send.

(** ** receiveMessage *)

Section Receive.
Context {W : Type} {BE : Backend W} {TR : Transport W} {RW : ResponseWriter W}.
Variable lib : Library.
Variable channel : Channel.

(** *** The loop bodies, case by case *)

Lemma receiveMessage_message_fromMe (message : moMessage)
    (acc : list Event * list Data) (w : World W) :
  FromMe message = true ->
  receiveMessage_message lib channel message acc w = (Normal acc, w).
Proof.
  intros H. unfold receiveMessage_message. destruct acc as [events data].
  rewrite H. reflexivity.
Qed.

Lemma receiveMessage_message_badURN (message : moMessage)
    (events : list Event) (data : list Data) (w : World W) (e : Err) :
  FromMe message = false ->
  NewWhatsAppURN lib (strings_Replace1 (Author message) "@c.us" "") = inl e ->
  receiveMessage_message lib channel message (events, data) w =
    (Returned ([], fst (resp_Write (RequestError e) (host w))),
     mkWorld (snd (resp_Write (RequestError e) (host w)))
             (calls w ++ [CallRespond (RequestError e)])).
Proof.
  intros Hme Hurn. unfold receiveMessage_message. rewrite Hme, Hurn. simpl.
  unfold bind, WriteAndLogRequestError, invoke, return_.
  destruct (resp_Write (RequestError e) (host w)); reflexivity.
Qed.

Lemma receiveMessage_message_ok (message : moMessage)
    (events : list Event) (data : list Data) (w : World W) (urn : URN) :
  FromMe message = false ->
  NewWhatsAppURN lib (strings_Replace1 (Author message) "@c.us" "") = inr urn ->
  let ev := receiveMessage_ev channel urn message in
  let event := receiveMessage_event channel urn message
                 (store_externalIDSeen ev (host w)) in
  let made := [CallNewIncomingMsg channel urn (msg_text ev);
               CallCheckExternalIDSeen ev; CallWriteMsg event] in
  receiveMessage_message lib channel message (events, data) w =
    match store_WriteMsg event (host w) with
    | (Some e, h') =>
        (Returned ([], Some e), mkWorld h' (calls w ++ made))
    | (None, h') =>
        (Normal (events ++ [EvMsg event], data ++ [MsgReceiveData event])%list,
         mkWorld (store_WriteExternalIDSeen event h')
                 (calls w ++ made ++ [CallWriteExternalIDSeen event]))
    end.
Proof.
  intros Hme Hurn ev event made.
  unfold receiveMessage_message. rewrite Hme, Hurn. cbn [negb].
  subst made event ev.
  unfold receiveMessage_event, receiveMessage_ev.
  destruct (Type_ message =? "image");
    unfold bind, NewIncomingMsg, CheckExternalIDSeen, WriteMsg,
           WriteExternalIDSeen, invoke, return_, ret;
    cbn [host calls msg_text WithContactName WithReceivedOn WithExternalID];
    match goal with |- context [store_WriteMsg ?m ?h] =>
      destruct (store_WriteMsg m h) as [[e|] h'] end;
    cbn [host calls]; repeat rewrite <- app_assoc; reflexivity.
Qed.

Lemma receiveMessage_ack_eq (ack : moAck)
    (events : list Event) (data : list Data) (w : World W) :
  let st := mkStatus channel NilMsgID (ackID ack) (receiveMessage_status ack) [] in
  let made := [CallNewMsgStatusForExternalID channel (ackID ack) (receiveMessage_status ack);
               CallWriteMsgStatus st] in
  receiveMessage_ack channel ack (events, data) w =
    match store_WriteMsgStatus st (host w) with
    | (Some ErrMsgNotFound, h') =>
        (Normal (events, (data ++ [InfoData "message not found, ignored"])%list),
         mkWorld h' (calls w ++ made))
    | (Some e, h') => (Returned ([], Some e), mkWorld h' (calls w ++ made))
    | (None, h') =>
        (Normal ((events ++ [EvStatus st])%list, (data ++ [StatusData st])%list),
         mkWorld h' (calls w ++ made))
    end.
Proof.
  intros st made. subst made st.
  unfold receiveMessage_ack, bind, NewMsgStatusForExternalID, WriteMsgStatus,
         invoke, return_, ret.
  cbn [host calls].
  match goal with |- context [store_WriteMsgStatus ?m ?h] =>
    destruct (store_WriteMsgStatus m h) as [[[|msg]|] h'] end;
    cbn [host calls]; repeat rewrite <- app_assoc; reflexivity.
Qed.

Lemma forRange_notFromMe (messages : list moMessage)
    (acc : list Event * list Data) (w : World W) :
  forRange (receiveMessage_message lib channel) messages acc w =
  forRange (receiveMessage_message lib channel) (notFromMe messages) acc w.
Proof.
  revert acc w; induction messages as [|m l IH]; intros acc w; [reflexivity|].
  unfold notFromMe. cbn [filter forRange].
  destruct (FromMe m) eqn:Hme; cbn [negb].
  - unfold bind. rewrite (receiveMessage_message_fromMe _ _ _ Hme).
    apply IH.
  - cbn [forRange]. unfold bind.
    destruct (receiveMessage_message lib channel m acc w) as [[a|r|s] w'];
      try reflexivity.
    apply IH.
Qed.

(** C4.  An entry with fromMe = true is passed over: the loop body makes
    no call and leaves the events and the response data as they were, and
    the whole call behaves (result, host state and trace alike) as it does
    on the batch without the fromMe entries, so the other entries are
    processed as usual. *)
Theorem receiveMessage_skips_fromMe (r r' : HTTPRequest) (p : moPayload)
    (w : World W) :
  DecodeAndValidateJSON_mo lib r = inr p ->
  DecodeAndValidateJSON_mo lib r' =
    inr (mkMoPayload (InstanceID p) (notFromMe (Messages p)) (Ack p)) ->
  (forall m acc w0, In m (Messages p) -> FromMe m = true ->
     receiveMessage_message lib channel m acc w0 = (Normal acc, w0)) /\
  receiveMessage lib channel r w = receiveMessage lib channel r' w.
Proof.
  intros Hr Hr'. split.
  - intros m acc w0 _ Hme. apply receiveMessage_message_fromMe. exact Hme.
  - unfold receiveMessage, func. rewrite Hr, Hr'.
    unfold receiveMessage_payload. cbn [InstanceID Messages Ack].
    destruct (InstanceID p =? ""); [reflexivity|].
    unfold bind at 1 5. rewrite forRange_notFromMe. reflexivity.
Qed.


(** *** What a run of the loops leaves behind *)

Lemma receiveMessage_event_carries (urn : URN) (message : moMessage) (seen : bool) :
  carries message (receiveMessage_event channel urn message seen).
Proof.
  unfold carries, receiveMessage_event, receiveMessage_ev.
  destruct (Type_ message =? "image"); destruct seen; simpl; auto.
Qed.

Lemma receiveMessage_messages_run (messages : list moMessage) :
  forall events data w o w',
  forRange (receiveMessage_message lib channel) messages (events, data) w = (o, w') ->
  exists new, calls w' = (calls w ++ new)%list /\
    match o with
    | Normal (events', data') =>
        exists evs,
          events' = (events ++ map EvMsg evs)%list /\
          data' = (data ++ map MsgReceiveData evs)%list /\
          Forall2 carries (notFromMe messages) evs /\
          written new = evs /\ responded new = []
    | Returned (evs, _) =>
        evs = [] /\ refused (responded new) /\
        exists n, Forall2 carries (firstn n (notFromMe messages)) (written new)
    | Panicked _ => False
    end.
Proof.
  induction messages as [|m l IH]; intros events data w o w' Hrun.
  - cbn in Hrun. inversion Hrun; subst. exists []. rewrite app_nil_r.
    split; [reflexivity|]. exists []. cbn. rewrite !app_nil_r.
    repeat split; constructor.
  - cbn [forRange] in Hrun. unfold bind in Hrun.
    unfold notFromMe. cbn [filter]. fold (notFromMe l).
    destruct (FromMe m) eqn:Hme.
    + rewrite receiveMessage_message_fromMe in Hrun by exact Hme.
      cbn [negb]. apply IH. exact Hrun.
    + cbn [negb].
      destruct (NewWhatsAppURN lib (strings_Replace1 (Author m) "@c.us" ""))
        as [e|urn] eqn:Hurn.
      * rewrite (@receiveMessage_message_badURN m events data w e Hme Hurn) in Hrun.
        inversion Hrun; subst. eexists. split; [reflexivity|].
        split; [reflexivity|].
        split; [right; left; exists e; reflexivity|].
        exists 0. constructor.
      * rewrite (@receiveMessage_message_ok m events data w urn Hme Hurn) in Hrun.
        destruct (store_WriteMsg _ (host w)) as [[e|] h'] eqn:Hw.
        -- inversion Hrun; subst. eexists. split; [reflexivity|].
           split; [reflexivity|]. split; [left; reflexivity|].
           exists 1. cbn. constructor; [|destruct (notFromMe l); constructor].
           apply receiveMessage_event_carries.
        -- apply IH in Hrun. destruct Hrun as (new & Hcalls & Ho).
           cbn [calls] in Hcalls. rewrite <- app_assoc in Hcalls.
           eexists. split; [exact Hcalls|].
           destruct o as [[events' data']|[evs err]|msg].
           ++ destruct Ho as (evs & He & Hd & Hf & Hwr & Hre).
              eexists (_ :: evs).
              rewrite <- app_assoc in He, Hd.
              split; [exact He|]. split; [exact Hd|].
              split; [constructor; [apply receiveMessage_event_carries|exact Hf]|].
              rewrite written_app, responded_app. cbn.
              rewrite Hwr, Hre. split; reflexivity.
           ++ destruct Ho as (He & Hre & n & Hn). split; [exact He|].
              rewrite responded_app, written_app. cbn.
              split; [exact Hre|]. exists (S n). cbn.
              constructor; [apply receiveMessage_event_carries|exact Hn].
           ++ exact Ho.
Qed.

Lemma receiveMessage_acks_run (acks : list moAck) :
  forall events data w o w',
  forRange (receiveMessage_ack channel) acks (events, data) w = (o, w') ->
  exists new, calls w' = (calls w ++ new)%list /\
    written new = [] /\ responded new = [] /\
    match o with
    | Normal (events', _) => msgEvents events' = msgEvents events
    | Returned (evs, _) => evs = []
    | Panicked _ => False
    end.
Proof.
  induction acks as [|a l IH]; intros events data w o w' Hrun.
  - cbn in Hrun. inversion Hrun; subst. exists []. rewrite app_nil_r.
    repeat split; reflexivity.
  - cbn [forRange] in Hrun. unfold bind in Hrun.
    rewrite receiveMessage_ack_eq in Hrun.
    destruct (store_WriteMsgStatus _ (host w)) as [[[|msg]|] h'] eqn:Hw.
    + apply IH in Hrun. destruct Hrun as (new & Hcalls & Hwr & Hre & Ho).
      cbn [calls] in Hcalls. rewrite <- app_assoc in Hcalls.
      eexists. split; [exact Hcalls|].
      rewrite written_app, responded_app, Hwr, Hre.
      repeat split; try reflexivity. exact Ho.
    + inversion Hrun; subst. eexists. split; [reflexivity|].
      repeat split; reflexivity.
    + apply IH in Hrun. destruct Hrun as (new & Hcalls & Hwr & Hre & Ho).
      cbn [calls] in Hcalls. rewrite <- app_assoc in Hcalls.
      eexists. split; [exact Hcalls|].
      rewrite written_app, responded_app, Hwr, Hre.
      repeat split; try reflexivity.
      destruct o as [[events' data']|[evs err]|msg]; try exact Ho.
      rewrite Ho, msgEvents_app. cbn. apply app_nil_r.
Qed.

Lemma receiveMessage_payload_run (p : moPayload) (w : World W) o w' :
  receiveMessage_payload lib channel p w = (o, w') ->
  exists new, calls w' = (calls w ++ new)%list /\
    (exists n, Forall2 carries (firstn n (notFromMe (Messages p))) (written new)) /\
    match o with
    | Normal (events, _) =>
        (exists data, responded new = [DataResponse http_StatusOK "Events Handled" data]) /\
        Forall2 carries (notFromMe (Messages p)) (msgEvents events) /\
        written new = msgEvents events
    | Returned (evs, _) => evs = [] /\ refused (responded new)
    | Panicked _ => False
    end.
Proof.
  unfold receiveMessage_payload. intros Hrun.
  destruct (InstanceID p =? "").
  - unfold bind, WriteAndLogRequestIgnored, invoke, return_ in Hrun.
    destruct (resp_Write _ (host w)) as [e h]. inversion Hrun; subst.
    eexists. split; [reflexivity|]. cbn.
    split; [exists 0; constructor|].
    split; [reflexivity|]. right. right. eexists. reflexivity.
  - unfold bind at 1 in Hrun.
    destruct (forRange (receiveMessage_message lib channel) (Messages p) ([], []) w)
      as [o1 w1] eqn:H1.
    apply receiveMessage_messages_run in H1. destruct H1 as (new1 & Hc1 & Ho1).
    destruct o1 as [[events1 data1]|[evs1 err1]|msg1].
    + destruct Ho1 as (evs & He & Hd & Hf & Hwr & Hre).
      unfold bind at 1 in Hrun.
      destruct (forRange (receiveMessage_ack channel) (Ack p) (events1, data1) w1)
        as [o2 w2] eqn:H2.
      apply receiveMessage_acks_run in H2.
      destruct H2 as (new2 & Hc2 & Hwr2 & Hre2 & Ho2).
      assert (Hall : exists n, Forall2 carries (firstn n (notFromMe (Messages p))) evs).
      { exists (List.length (notFromMe (Messages p))). rewrite firstn_all. exact Hf. }
      destruct o2 as [[events2 data2]|[evs2 err2]|msg2].
      * unfold bind, WriteDataResponse, invoke, ret in Hrun.
        destruct (resp_Write _ (host w2)) as [e h]. inversion Hrun; subst.
        cbn [calls]. rewrite Hc2, Hc1. rewrite <- !app_assoc.
        eexists. split; [reflexivity|].
        rewrite !written_app, !responded_app, Hwr2, Hre2, Hre. cbn.
        rewrite app_nil_r.
        split; [exact Hall|].
        split; [eexists; reflexivity|].
        rewrite Ho2. cbn [app].
        assert (Hm : msgEvents (map EvMsg (written new1)) = written new1).
        { clear. induction (written new1) as [|x xs IHx]; cbn; [|rewrite IHx]; reflexivity. }
        rewrite Hm. split; [exact Hf|reflexivity].
      * inversion Hrun; subst. rewrite Hc2, Hc1, <- app_assoc.
        eexists. split; [reflexivity|].
        rewrite written_app, responded_app, Hwr2, Hre2, Hre, app_nil_r.
        split; [exact Hall|]. split; [reflexivity|left; reflexivity].
      * contradiction.
    + destruct Ho1 as (He & Hre & Hn). inversion Hrun; subst.
      eexists. split; [exact Hc1|]. split; [exact Hn|].
      split; [reflexivity|exact Hre].
    + contradiction.
Qed.


(** C7.  When the write of a message event fails, the call ends there
    with that error and no event: the last call made is the failed
    WriteMsg (so no later entry and no acknowledgement is processed), no
    response is written, and what the earlier entries of the batch wrote
    stays written: the host is left as the failed write left it. *)
Theorem receiveMessage_persist_failure_aborts (r : HTTPRequest) (p : moPayload)
    (pre post : list moMessage) (m : moMessage) (w w1 : World W)
    (events : list Event) (data : list Data) (urn : URN) (e : Err) (h' : W) :
  DecodeAndValidateJSON_mo lib r = inr p ->
  InstanceID p <> "" ->
  Messages p = (pre ++ m :: post)%list ->
  forRange (receiveMessage_message lib channel) pre ([], []) w
    = (Normal (events, data), w1) ->
  FromMe m = false ->
  NewWhatsAppURN lib (strings_Replace1 (Author m) "@c.us" "") = inr urn ->
  let ev := receiveMessage_ev channel urn m in
  let event := receiveMessage_event channel urn m (store_externalIDSeen ev (host w1)) in
  store_WriteMsg event (host w1) = (Some e, h') ->
  receiveMessage lib channel r w =
    (Done ([], Some e),
     mkWorld h' (calls w1 ++ [CallNewIncomingMsg channel urn (msg_text ev);
                              CallCheckExternalIDSeen ev; CallWriteMsg event])) /\
  responded (calls (snd (receiveMessage lib channel r w))) = responded (calls w) /\
  exists earlier, calls w1 = (calls w ++ earlier)%list /\
                  written earlier = msgEvents events.
Proof.
  intros Hdec Hinst Hmsgs Hpre Hme Hurn ev event Hwrite.
  assert (E : receiveMessage lib channel r w =
    (Done ([], Some e),
     mkWorld h' (calls w1 ++ [CallNewIncomingMsg channel urn (msg_text ev);
                              CallCheckExternalIDSeen ev; CallWriteMsg event]))).
  { unfold receiveMessage, func. rewrite Hdec. unfold receiveMessage_payload.
    apply String.eqb_neq in Hinst. rewrite Hinst, Hmsgs.
    unfold bind at 1. rewrite forRange_app.
    unfold bind at 1. rewrite Hpre. cbn [forRange].
    unfold bind at 1.
    rewrite (@receiveMessage_message_ok m events data w1 urn Hme Hurn).
    fold ev. fold event. rewrite Hwrite. reflexivity. }
  apply receiveMessage_messages_run in Hpre.
  destruct Hpre as (earlier & Hc & evs & He & _ & _ & Hwr & Hre).
  split; [exact E|]. split.
  - rewrite E. cbn [snd calls]. rewrite Hc, !responded_app, Hre. cbn.
    rewrite !app_nil_r. reflexivity.
  - exists earlier. split; [exact Hc|].
    rewrite He, Hwr. cbn [app]. clear.
    induction evs as [|x xs IH]; cbn; [|rewrite <- IH]; reflexivity.
Qed.

End Receive.

(** ** Deduplication, on the in-memory host *)

Section Idempotence.
#[local] Existing Instance Mem.backend.
#[local] Existing Instance Mem.writer.
Variable lib : Library.
Variable channel : Channel.

Lemma receiveMessage_event_id (urn : URN) (m : moMessage) (b : bool) :
  msg_externalID (receiveMessage_event channel urn m b) = ID_ m /\
  msg_alreadyWritten (receiveMessage_event channel urn m b) = b /\
  msg_externalID (receiveMessage_ev channel urn m) = ID_ m.
Proof.
  unfold receiveMessage_event, receiveMessage_ev.
  destruct (Type_ m =? "image"); destruct b; simpl; auto.
Qed.

Lemma count_app (x : string) (l1 l2 : list Msg) :
  Mem.count x (l1 ++ l2) = Mem.count x l1 + Mem.count x l2.
Proof. unfold Mem.count. rewrite filter_app, length_app. reflexivity. Qed.

(** Recording an id whose message is persisted keeps the store
    consistent, whether the message was persisted just now or before. *)
Lemma consistent_record_seen (s : Mem.State) (event : Msg) :
  Mem.consistent s ->
  Mem.mem (msg_externalID event) (Mem.seen s) = true ->
  Mem.consistent (Mem.writeExternalIDSeen event s).
Proof.
  intros Hc Hseen x. specialize (Hc x).
  unfold Mem.writeExternalIDSeen, Mem.mem in *.
  cbn [Mem.persisted Mem.seen existsb].
  destruct (x =? msg_externalID event) eqn:Hx; cbn [orb]; [|exact Hc].
  apply String.eqb_eq in Hx. subst x. rewrite Hseen in Hc. exact Hc.
Qed.

Lemma consistent_persist_then_record (s : Mem.State) (event : Msg) :
  Mem.consistent s ->
  Mem.mem (msg_externalID event) (Mem.seen s) = false ->
  Mem.consistent
    (Mem.writeExternalIDSeen event
       (Mem.mkState (Mem.contacts s) (Mem.languages s)
                    (Mem.persisted s ++ [event]) (Mem.seen s) (Mem.outbound s)
                    (Mem.statuses s) (Mem.responses s) (Mem.requests s)
                    (Mem.failing s) (Mem.net_up s))).
Proof.
  intros Hc Hseen x. specialize (Hc x).
  unfold Mem.writeExternalIDSeen, Mem.mem in *.
  cbn [Mem.persisted Mem.seen existsb].
  rewrite count_app. unfold Mem.count at 2. cbn [filter].
  rewrite (String.eqb_sym (msg_externalID event) x).
  destruct (x =? msg_externalID event) eqn:Hx; cbn [orb List.length].
  - apply String.eqb_eq in Hx. subst x. rewrite Hseen in Hc. lia.
  - rewrite Hc. lia.
Qed.

Lemma mem_cons (x y : string) (l : list string) :
  Mem.mem x (y :: l) = (x =? y) || Mem.mem x l.
Proof. reflexivity. Qed.

Lemma mem_message_step (m : moMessage) (events : list Event) (data : list Data)
    (w : World Mem.State) o w' :
  Mem.consistent (host w) ->
  receiveMessage_message lib channel m (events, data) w = (o, w') ->
  Mem.consistent (host w') /\
  (forall x, Mem.mem x (Mem.seen (host w)) = true ->
             Mem.mem x (Mem.seen (host w')) = true) /\
  match o with
  | Normal _ => FromMe m = false -> Mem.mem (ID_ m) (Mem.seen (host w')) = true
  | _ => True
  end.
Proof.
  intros Hc Hrun.
  destruct (FromMe m) eqn:Hme.
  - rewrite receiveMessage_message_fromMe in Hrun by exact Hme.
    inversion Hrun; subst. repeat split; auto. discriminate.
  - destruct (NewWhatsAppURN lib (strings_Replace1 (Author m) "@c.us" ""))
      as [e|urn] eqn:Hurn.
    + rewrite (@receiveMessage_message_badURN _ _ _ lib channel m events data w e Hme Hurn) in Hrun.
      inversion Hrun; subst. cbn. repeat split; auto.
    + rewrite (@receiveMessage_message_ok _ _ _ lib channel m events data w urn Hme Hurn) in Hrun.
      destruct (receiveMessage_event_id urn m
                  (store_externalIDSeen (receiveMessage_ev channel urn m) (host w)))
        as (Hid & Haw & Hid0).
      cbn [store_externalIDSeen store_WriteMsg store_WriteExternalIDSeen
           Mem.backend] in *.
      unfold Mem.externalIDSeen in *. rewrite Hid0 in *.
      unfold Mem.writeMsg in Hrun. rewrite Haw, Hid in Hrun.
      destruct (Mem.mem (ID_ m) (Mem.seen (host w))) eqn:Hseen.
      * inversion Hrun; subst. cbn [host].
        split; [apply consistent_record_seen; [exact Hc|rewrite Hid; exact Hseen]|].
        unfold Mem.writeExternalIDSeen. cbn [Mem.seen]. rewrite Hid.
        split.
        -- intros x Hx. rewrite mem_cons, Hx. apply orb_true_r.
        -- intros _. rewrite mem_cons, String.eqb_refl. reflexivity.
      * destruct (Mem.mem (ID_ m) (Mem.failing (host w))).
        -- inversion Hrun; subst. cbn [host]. repeat split; auto.
        -- inversion Hrun; subst. cbn [host].
           split; [apply consistent_persist_then_record;
                   [exact Hc|rewrite Hid; exact Hseen]|].
           unfold Mem.writeExternalIDSeen. cbn [Mem.seen]. rewrite Hid.
           split.
           ++ intros x Hx. rewrite mem_cons, Hx. apply orb_true_r.
           ++ intros _. rewrite mem_cons, String.eqb_refl. reflexivity.
Qed.

Lemma consistent_ext (s s' : Mem.State) :
  Mem.persisted s' = Mem.persisted s -> Mem.seen s' = Mem.seen s ->
  Mem.consistent s -> Mem.consistent s'.
Proof. intros Hp Hs Hc x. rewrite Hp, Hs. apply Hc. Qed.

Lemma mem_messages_loop (l : list moMessage) :
  forall events data (w : World Mem.State) o w',
  Mem.consistent (host w) ->
  forRange (receiveMessage_message lib channel) l (events, data) w = (o, w') ->
  Mem.consistent (host w') /\
  (forall x, Mem.mem x (Mem.seen (host w)) = true ->
             Mem.mem x (Mem.seen (host w')) = true) /\
  match o with
  | Normal _ => forall m, In m l -> FromMe m = false ->
                          Mem.mem (ID_ m) (Mem.seen (host w')) = true
  | _ => True
  end.
Proof.
  induction l as [|m l IH]; intros events data w o w' Hc Hrun.
  - cbn in Hrun. inversion Hrun; subst. repeat split; auto.
  - cbn [forRange] in Hrun. unfold bind in Hrun.
    destruct (receiveMessage_message lib channel m (events, data) w)
      as [o1 w1] eqn:H1.
    apply mem_message_step in H1; [|exact Hc].
    destruct H1 as (Hc1 & Hmono1 & Ho1).
    destruct o1 as [[events1 data1]|r1|msg1].
    + apply IH in Hrun; [|exact Hc1].
      destruct Hrun as (Hc' & Hmono & Ho).
      split; [exact Hc'|]. split; [auto|].
      destruct o; auto.
      intros m0 [<-|Hin] Hme; [apply Hmono, Ho1, Hme|apply Ho; assumption].
    + inversion Hrun; subst. repeat split; auto.
    + inversion Hrun; subst. repeat split; auto.
Qed.

Lemma mem_acks_loop (l : list moAck) :
  forall events data (w : World Mem.State) o w',
  forRange (receiveMessage_ack channel) l (events, data) w = (o, w') ->
  Mem.persisted (host w') = Mem.persisted (host w) /\
  Mem.seen (host w') = Mem.seen (host w).
Proof.
  induction l as [|a l IH]; intros events data w o w' Hrun.
  - cbn in Hrun. inversion Hrun; subst. split; reflexivity.
  - cbn [forRange] in Hrun. unfold bind in Hrun.
    rewrite receiveMessage_ack_eq in Hrun.
    cbn [store_WriteMsgStatus Mem.backend] in Hrun.
    unfold Mem.writeMsgStatus in Hrun. cbn [status_externalID] in Hrun.
    destruct (Mem.mem (ackID a) (Mem.failing (host w))).
    + inversion Hrun; subst. split; reflexivity.
    + destruct (Mem.mem (ackID a) (Mem.outbound (host w)));
        apply IH in Hrun; exact Hrun.
Qed.

Lemma mem_payload (p : moPayload) (w : World Mem.State) o w' :
  Mem.consistent (host w) ->
  receiveMessage_payload lib channel p w = (o, w') ->
  Mem.consistent (host w') /\
  (forall x, Mem.mem x (Mem.seen (host w)) = true ->
             Mem.mem x (Mem.seen (host w')) = true) /\
  match o with
  | Normal _ => forall m, In m (Messages p) -> FromMe m = false ->
                          Mem.mem (ID_ m) (Mem.seen (host w')) = true
  | _ => True
  end.
Proof.
  intros Hc Hrun. unfold receiveMessage_payload in Hrun.
  destruct (InstanceID p =? "").
  - cbn in Hrun. inversion Hrun; subst. cbn. repeat split; auto.
  - unfold bind at 1 in Hrun.
    destruct (forRange (receiveMessage_message lib channel) (Messages p) ([], []) w)
      as [o1 w1] eqn:H1.
    apply mem_messages_loop in H1; [|exact Hc].
    destruct H1 as (Hc1 & Hmono1 & Ho1).
    destruct o1 as [[events1 data1]|r1|msg1];
      [|inversion Hrun; subst; repeat split; auto ..].
    unfold bind at 1 in Hrun.
    destruct (forRange (receiveMessage_ack channel) (Ack p) (events1, data1) w1)
      as [o2 w2] eqn:H2.
    apply mem_acks_loop in H2. destruct H2 as (Hp2 & Hs2).
    destruct o2 as [[events2 data2]|r2|msg2].
    + cbn in Hrun. inversion Hrun; subst. cbn [host Mem.seen].
      split; [apply (@consistent_ext (host w1)); [cbn; exact Hp2|cbn; exact Hs2|exact Hc1]|].
      rewrite Hs2. split; assumption.
    + inversion Hrun; subst. rewrite Hs2.
      split; [apply (@consistent_ext (host w1)); assumption|]. split; auto.
    + inversion Hrun; subst. rewrite Hs2.
      split; [apply (@consistent_ext (host w1)); assumption|]. split; auto.
Qed.

Lemma mem_receiveMessage (r : HTTPRequest) (w : World Mem.State) :
  Mem.consistent (host w) ->
  Mem.consistent (host (snd (receiveMessage lib channel r w))) /\
  (forall x, Mem.mem x (Mem.seen (host w)) = true ->
             Mem.mem x (Mem.seen (host (snd (receiveMessage lib channel r w)))) = true).
Proof.
  intros Hc. unfold receiveMessage, func.
  destruct (DecodeAndValidateJSON_mo lib r) as [e|p].
  - cbn. split; auto.
  - destruct (receiveMessage_payload lib channel p w) as [o w'] eqn:Hrun.
    apply mem_payload in Hrun; [|exact Hc].
    destruct Hrun as (Hc' & Hmono & _).
    destruct o; cbn [snd]; split; assumption.
Qed.

(** C8.  On the in-memory host.  For an entry that is not fromMe and
    whose author is a valid identifier, the loop body first asks whether
    the external id was seen, then writes the event, and records the id
    as seen only when that write returned no error.  And receipt is
    idempotent: in a consistent store, once a batch holding the entry has
    been accepted (answered with the data response), exactly one persisted
    message carries its external id, and that is still so after any
    further request, the same one submitted again included. *)
Theorem receiveMessage_idempotent (r1 r2 : HTTPRequest) (p1 : moPayload)
    (m : moMessage) (w0 : World Mem.State)
    (code : Z) (label : string) (data : list Data) :
  Mem.consistent (host w0) ->
  DecodeAndValidateJSON_mo lib r1 = inr p1 ->
  In m (Messages p1) ->
  FromMe m = false ->
  let w1 := snd (receiveMessage lib channel r1 w0) in
  let w2 := snd (receiveMessage lib channel r2 w1) in
  responded (calls w1) = (responded (calls w0) ++ [DataResponse code label data])%list ->
  (forall urn acc w,
     NewWhatsAppURN lib (strings_Replace1 (Author m) "@c.us" "") = inr urn ->
     let ev := receiveMessage_ev channel urn m in
     let event := receiveMessage_event channel urn m (Mem.externalIDSeen ev (host w)) in
     calls (snd (receiveMessage_message lib channel m acc w)) =
       (calls w ++ [CallNewIncomingMsg channel urn (msg_text ev);
                    CallCheckExternalIDSeen ev; CallWriteMsg event]
                ++ match fst (Mem.writeMsg event (host w)) with
                   | Some _ => []
                   | None => [CallWriteExternalIDSeen event]
                   end)%list) /\
  Mem.count (ID_ m) (Mem.persisted (host w1)) = 1 /\
  Mem.count (ID_ m) (Mem.persisted (host w2)) = 1 /\
  Mem.consistent (host w2).
Proof.
  intros Hc Hdec Hin Hme w1 w2 Hresp.
  split.
  { intros urn [events dat] w Hurn ev event.
    rewrite (@receiveMessage_message_ok _ _ _ lib channel m events dat w urn Hme Hurn).
    cbn [store_externalIDSeen store_WriteMsg Mem.backend]. fold ev. fold event.
    destruct (Mem.writeMsg event (host w)) as [[e|] h']; reflexivity. }
  assert (Hseen1 : Mem.consistent (host w1) /\
                   Mem.mem (ID_ m) (Mem.seen (host w1)) = true).
  { subst w1 w2. unfold receiveMessage, func in *. rewrite Hdec in *.
    destruct (receiveMessage_payload lib channel p1 w0) as [o w'] eqn:Hrun.
    pose proof Hrun as Hrun'. apply receiveMessage_payload_run in Hrun'.
    destruct Hrun' as (new & Hcalls & _ & Ho).
    apply mem_payload in Hrun; [|exact Hc].
    destruct Hrun as (Hc' & _ & Hs).
    assert (Hnew : responded new = [DataResponse code label data]).
    { destruct o; cbn [snd] in Hresp; rewrite Hcalls, responded_app in Hresp;
        apply app_inv_head in Hresp; exact Hresp. }
    destruct o as [[events e]|[evs e]|msg]; cbn [snd].
    - split; [exact Hc'|]. apply Hs; assumption.
    - destruct Ho as (_ & [Hr|[[x Hr]|[x Hr]]]); rewrite Hr in Hnew; discriminate.
    - contradiction. }
  destruct Hseen1 as (Hc1 & Hs1).
  destruct (mem_receiveMessage r2 w1 Hc1) as (Hc2 & Hmono2). fold w2 in Hc2, Hmono2.
  split; [rewrite (Hc1 (ID_ m)), Hs1; reflexivity|].
  split; [rewrite (Hc2 (ID_ m)), (Hmono2 _ Hs1); reflexivity|exact Hc2].
Qed.

End Idempotence.

(** ** The statements above, on concrete inputs *)

Section Witnesses.
#[local] Existing Instance Mem.backend.
#[local] Existing Instance Mem.transport.
#[local] Existing Instance Mem.writer.

Import Example.

Lemma registerUser_empty_urn_ignored_witness :
  registerUser (lib no_urn) channel request (Mem.start host0) =
    (Done ([], None),
     mkWorld (Mem.mkState [] [] [] [] ["out1"] [] 
                          [RequestIgnored "Ignoring request, no identifier"] [] [] true)
             [CallRespond (RequestIgnored "Ignoring request, no identifier")]).
Proof.
  exact (proj1 (@registerUser_empty_urn_ignored _ _ _ (lib no_urn) channel request
                  no_urn (Mem.start host0) eq_refl eq_refl)).
Defined.

Lemma registerUser_malformed_language_panics_witness :
  fst (registerUser (lib bad_language) channel request (Mem.start host0)) =
    Panic "language: tag is not well-formed" /\
  responded (calls (snd (registerUser (lib bad_language) channel request
                                      (Mem.start host0)))) = [].
Proof.
  pose proof (@registerUser_malformed_language_panics Mem.State _ _
                (lib bad_language) channel request bad_language (Mem.start host0)
                "ws" [] (mkURN "ws" "5511999990000" "" "")
                (mkContact "contact:5511999990000")
                (Mem.mkState [(mkURN "ws" "5511999990000" "" "",
                               mkContact "contact:5511999990000")]
                             [] [] [] ["out1"] [] [] [] [] true)
                (ErrOther "language: tag is not well-formed")
                eq_refl ltac:(discriminate) eq_refl eq_refl eq_refl eq_refl)
    as [E R].
  split; [rewrite E; reflexivity|exact R].
Defined.

Lemma SendMsg_wired_whatever_transport_witness :
  exists st w',
    SendMsg (lib no_urn) outgoing (Mem.start host_offline) = (Done (st, None), w') /\
    status_value st = MsgWired /\
    List.length (posted (calls w')) = 1 /\
    map log_error (status_logs st) = [Some (ErrOther "connection refused")].
Proof.
  eexists. eexists. split.
  - eapply (@SendMsg_wired_whatever_transport Mem.State _ (lib no_urn) outgoing
             (Mem.start host_offline)).
    + discriminate.
    + reflexivity.
    + reflexivity.
    + reflexivity.
  - repeat split; reflexivity.
Defined.

Lemma SendMsg_empty_text_sends_nothing_witness :
  SendMsg (lib no_urn) attachment_only (Mem.start host0) =
    (Done (mkStatus channel 8%Z "" MsgErrored [], None),
     mkWorld host0 [CallNewMsgStatusForID channel 8%Z MsgErrored]) /\
  dp_Attachments (SendMsg_data (lib no_urn) attachment_only) =
    ["image/jpeg:https://img.example.com/2.jpg"].
Proof.
  pose proof (@SendMsg_empty_text_sends_nothing Mem.State _ (lib no_urn)
                attachment_only (Mem.start host0) eq_refl) as (E & _ & A & _).
  split; [exact E|exact A].
Defined.

Lemma SendMsg_data_first_plus_removed_witness :
  dp_ToNoPlus (SendMsg_data (lib no_urn) outgoing) = "15551234567".
Proof.
  exact (proj1 (proj2 (SendMsg_data_first_plus_removed (lib no_urn) outgoing))
               "15551234567" eq_refl).
Defined.

(** C9 (as stated, refuted).  The channel address of the example holds a
    "+" that is not leading: the derived field loses it, while stripping a
    leading "+" would leave the address as it is. *)
Lemma SendMsg_data_not_leading_plus :
  dp_FromNoPlus (SendMsg_data (lib no_urn) outgoing) <>
  strip_leading_plus (ch_address (msg_channel outgoing)).
Proof. vm_compute. discriminate. Qed.

Lemma receiveMessage_skips_fromMe_witness :
  receiveMessage (lib no_urn) channel request (Mem.start host0) =
  receiveMessage (lib no_urn) channel request' (Mem.start host0).
Proof.
  exact (proj2 (@receiveMessage_skips_fromMe Mem.State _ _ (lib no_urn) channel
                  request request' batch (Mem.start host0) eq_refl eq_refl)).
Defined.



Lemma receiveMessage_persist_failure_aborts_witness :
  fst (receiveMessage (lib no_urn) channel request (Mem.start host_failing)) =
    Done ([], Some (ErrOther "unable to queue message")) /\
  responded (calls (snd (receiveMessage (lib no_urn) channel request
                                        (Mem.start host_failing)))) = [] /\
  map msg_externalID
      (Mem.persisted (host (snd (receiveMessage (lib no_urn) channel request
                                                (Mem.start host_failing))))) = ["id1"].
Proof.
  pose proof (@receiveMessage_persist_failure_aborts Mem.State _ _ (lib no_urn)
                channel request batch [text_entry; echo_entry] [] image_entry
                (Mem.start host_failing)) as H.
  specialize (H (snd (forRange (receiveMessage_message (lib no_urn) channel)
                               [text_entry; echo_entry] ([], [])
                               (Mem.start host_failing)))).
  edestruct H as (E & R & _);
    [reflexivity|discriminate|reflexivity|reflexivity|reflexivity|reflexivity
    |reflexivity|].
  rewrite E. split; [reflexivity|]. split; [exact R|reflexivity].
Defined.

Lemma receiveMessage_idempotent_witness :
  let w1 := snd (receiveMessage (lib no_urn) channel request (Mem.start host0)) in
  let w2 := snd (receiveMessage (lib no_urn) channel request w1) in
  Mem.count "id1" (Mem.persisted (host w1)) = 1 /\
  Mem.count "id1" (Mem.persisted (host w2)) = 1.
Proof.
  intros w1 w2.
  edestruct (@receiveMessage_idempotent (lib no_urn) channel request request batch
               text_entry (Mem.start host0)) as (_ & H1 & H2 & _);
    [intros x; reflexivity|reflexivity|left; reflexivity|reflexivity|reflexivity|].
  split; [exact H1|exact H2].
Defined.

End Witnesses.

(** * Further properties *)

(** ** strings.Replace with a count of one *)

Lemma strings_Replace1_eq (s old new : string) :
  strings_Replace1 s old new =
    if String.prefix old s
    then new ++ String.substring (String.length old)
                                 (String.length s - String.length old) s
    else match s with
         | EmptyString => EmptyString
         | String c s' => String c (strings_Replace1 s' old new)
         end.
Proof. destruct s; reflexivity. Qed.

Lemma prefix_app_self (old post : string) : String.prefix old (old ++ post) = true.
Proof.
  induction old as [|c old IH]; [destruct post; reflexivity|].
  cbn. destruct (ascii_dec c c) as [_|Hne]; [exact IH|contradiction].
Qed.

Lemma substring_after (old post : string) (n : nat) :
  String.substring (String.length old) n (old ++ post) = String.substring 0 n post.
Proof. induction old as [|c old IH]; [reflexivity|]. cbn. exact IH. Qed.

Lemma length_append (a b : string) :
  String.length (a ++ b) = String.length a + String.length b.
Proof. induction a as [|c a IH]; cbn; [reflexivity|]. rewrite IH. reflexivity. Qed.

(** X18.  [strings.Replace(s, old, new, 1)] rewrites the first occurrence
    and nothing else: when the first byte of [old] does not occur in [pre],
    the occurrence of [old] after [pre] is replaced by [new], and [post] is
    kept as it is, further occurrences of [old] included. *)
Theorem strings_Replace1_first_occurrence (pre old' post new : string) (c : ascii) :
  has_char c pre = false ->
  strings_Replace1 (pre ++ String c old' ++ post) (String c old') new
    = pre ++ new ++ post.
Proof.
  intros Hpre. induction pre as [|d pre IH].
  - cbn [String.append]. rewrite strings_Replace1_eq.
    change (String c (old' ++ post)) with (String c old' ++ post).
    rewrite prefix_app_self, substring_after, length_append.
    replace (String.length (String c old') + String.length post
             - String.length (String c old')) with (String.length post) by lia.
    rewrite substring_all. reflexivity.
  - cbn [has_char] in Hpre. apply orb_false_iff in Hpre. destruct Hpre as [Hcd Hpre].
    rewrite strings_Replace1_eq.
    change (String d pre ++ String c old' ++ post)
      with (String d (pre ++ String c old' ++ post)).
    cbn [String.prefix].
    destruct (ascii_dec c d) as [->|Hne]; [rewrite Ascii.eqb_refl in Hcd; discriminate|].
    rewrite (IH Hpre). reflexivity.
Qed.

(** X19.  Where [old] does not occur in [s], [strings.Replace(s, old, new, 1)]
    is [s]. *)
Theorem strings_Replace1_absent (s old new : string) :
  strings_Contains s old = false ->
  strings_Replace1 s old new = s.
Proof.
  induction s as [|d s IH]; intros H; rewrite strings_Replace1_eq;
    cbn [strings_Contains] in H; apply orb_false_iff in H; destruct H as [Hp Hs];
    rewrite Hp; [reflexivity|].
  rewrite (IH Hs). reflexivity.
Qed.

Lemma remove_first_absent (c : ascii) (s : string) :
  has_char c s = false -> remove_first c s = s.
Proof.
  induction s as [|d s IH]; [reflexivity|]. cbn. intros H.
  apply orb_false_iff in H. destruct H as [Hcd Hs].
  rewrite Hcd, (IH Hs). reflexivity.
Qed.

Lemma remove_first_length (c : ascii) (s : string) :
  has_char c s = true -> S (String.length (remove_first c s)) = String.length s.
Proof.
  induction s as [|d s IH]; [discriminate|]. cbn.
  destruct (Ascii.eqb c d); cbn; [reflexivity|].
  intros H. rewrite (IH H). reflexivity.
Qed.

Lemma strip_leading_plus_other (d : ascii) (s : string) :
  Ascii.eqb "+" d = false -> strip_leading_plus (String d s) = String d s.
Proof.
  destruct d as [[] [] [] [] [] [] [] []]; intros H; try reflexivity.
  discriminate H.
Qed.

Lemma remove_first_plus_leading_iff (s : string) :
  remove_first "+" s = strip_leading_plus s <->
  (has_char "+" s = false \/ exists s', s = String "+" s').
Proof.
  split.
  - destruct s as [|d s]; [left; reflexivity|].
    destruct (Ascii.eqb "+" d) eqn:Hd.
    + apply Ascii.eqb_eq in Hd. subst d. right. exists s. reflexivity.
    + rewrite (@strip_leading_plus_other d s Hd).
      cbn [remove_first has_char]. rewrite Hd. cbn [orb].
      intros H. left. injection H as H.
      destruct (has_char "+" s) eqn:Hs; [|reflexivity].
      apply remove_first_length in Hs. rewrite H in Hs. lia.
  - intros [H|[s' ->]].
    + rewrite (@remove_first_absent "+"%char s H).
      destruct s as [|d s]; [reflexivity|].
      cbn in H. apply orb_false_iff in H. destruct H as [Hd _].
      rewrite (@strip_leading_plus_other d s Hd). reflexivity.
    + reflexivity.
Qed.

(** The "@c.us" after an identifier without "@" is what
    [strings.Replace(author, "@c.us", "", 1)] removes. *)
Lemma strings_Replace1_suffix (identifier : string) :
  has_char "@" identifier = false ->
  strings_Replace1 (identifier ++ "@c.us") "@c.us" "" = identifier.
Proof.
  induction identifier as [|d s IH]; intros H; [reflexivity|].
  cbn [has_char] in H. apply orb_false_iff in H. destruct H as [Hd Hs].
  rewrite strings_Replace1_eq.
  change (String d s ++ "@c.us") with (String d (s ++ "@c.us")).
  cbn [String.prefix].
  destruct (ascii_dec "@" d) as [<-|Hne]; [rewrite Ascii.eqb_refl in Hd; discriminate|].
  rewrite (IH Hs). reflexivity.
Qed.

(** ** SendMsg, the other paths *)

Section SendMore.
Context {W : Type} {TR : Transport W}.
Variable lib : Library.

(** X17.  The derived "no-plus" fields agree with stripping a leading "+"
    exactly for the addresses that start with "+" or hold no "+" at all. *)
Theorem SendMsg_data_leading_plus_iff (msg : Msg) :
  let d := SendMsg_data lib msg in
  let to := urn_path (msg_urn msg) in
  let from := ch_address (msg_channel msg) in
  (dp_ToNoPlus d = strip_leading_plus to <->
     (has_char "+" to = false \/ exists s', to = String "+" s')) /\
  (dp_FromNoPlus d = strip_leading_plus from <->
     (has_char "+" from = false \/ exists s', from = String "+" s')).
Proof.
  intros d to from.
  destruct (SendMsg_data_fields lib msg) as (_ & _ & Ht & _ & Hf & _).
  fold d in Ht, Hf. fold to in Ht. fold from in Hf.
  rewrite Ht, Hf, !strings_Replace1_plus.
  split; apply remove_first_plus_leading_iff.
Qed.

(** X16.  What the payload carries beside the addresses: the message id
    as a string, the text, the attachments as the message lists them, and
    the quick replies under the single key "quick_replies", with no metadata
    at all when there is no quick reply. *)
Theorem SendMsg_data_metadata_attachments (msg : Msg) :
  let d := SendMsg_data lib msg in
  dp_ID d = MsgID_String lib (msg_id msg) /\
  dp_Text d = msg_text msg /\
  dp_Attachments d = msg_attachments msg /\
  (msg_quickReplies msg = [] -> dp_Metadata d = []) /\
  (msg_quickReplies msg <> [] ->
     dp_Metadata d = [("quick_replies", msg_quickReplies msg)]).
Proof.
  intros d. subst d. unfold SendMsg_data.
  destruct (msg_quickReplies msg) as [|q qs];
    destruct (msg_attachments msg) as [|a l]; cbn;
    repeat split; try reflexivity; intros H; try discriminate; contradiction.
Qed.

Lemma sendMsgPart_marshal_error (msg : Msg) (url : string) (payload : dataPayload)
    (w : World W) (err : Err) :
  json_Marshal lib payload = inl err ->
  sendMsgPart lib msg url payload w =
    (Done ("", NewChannelLog "unable to build JSON body" (msg_channel msg)
                             (msg_id msg) err, Some err), w).
Proof. intros H. unfold sendMsgPart, func. rewrite H. reflexivity. Qed.

Lemma SendMsg_run_empty (msg : Msg) (w : World W) :
  msg_text msg = "" ->
  SendMsg lib msg w =
    (Done (mkStatus (msg_channel msg) (msg_id msg) "" MsgErrored [], None),
     mkWorld (host w)
             (calls w ++ [CallNewMsgStatusForID (msg_channel msg) (msg_id msg) MsgErrored])).
Proof.
  intros Htext. unfold SendMsg, func, bind, NewMsgStatusForID, invoke.
  rewrite Htext. reflexivity.
Qed.

Lemma SendMsg_run_marshal_error (msg : Msg) (w : World W) (err : Err) :
  msg_text msg <> "" ->
  json_Marshal lib (SendMsg_data lib msg) = inl err ->
  SendMsg lib msg w =
    (Done (mkStatus (msg_channel msg) (msg_id msg) "" MsgErrored
             [NewChannelLog "unable to build JSON body" (msg_channel msg)
                            (msg_id msg) err], None),
     mkWorld (host w)
             (calls w ++ [CallNewMsgStatusForID (msg_channel msg) (msg_id msg) MsgErrored])).
Proof.
  intros Htext Hjson. apply String.eqb_neq in Htext.
  unfold SendMsg, func, bind, NewMsgStatusForID, invoke, call.
  rewrite Htext. cbn [negb host calls].
  rewrite (@sendMsgPart_marshal_error msg _ _ _ _ Hjson). reflexivity.
Qed.

Lemma SendMsg_run_bad_url (msg : Msg) (w : World W) (body : string) :
  msg_text msg <> "" ->
  json_Marshal lib (SendMsg_data lib msg) = inr body ->
  url_Parse_ok lib (ch_address (msg_channel msg)) = false ->
  SendMsg lib msg w =
    (Panic "nil pointer dereference",
     mkWorld (host w)
             (calls w ++ [CallNewMsgStatusForID (msg_channel msg) (msg_id msg) MsgErrored])).
Proof.
  intros Htext Hjson Hurl. apply String.eqb_neq in Htext.
  unfold SendMsg, func, bind, NewMsgStatusForID, invoke, call.
  rewrite Htext. cbn [negb host calls].
  unfold sendMsgPart, func. rewrite Hjson. unfold http_NewRequest. rewrite Hurl.
  reflexivity.
Qed.

Lemma SendMsg_run_posted (msg : Msg) (w : World W) (body : string)
    (rr : RequestResponse) (err : option Err) (h' : W) :
  msg_text msg <> "" ->
  json_Marshal lib (SendMsg_data lib msg) = inr body ->
  url_Parse_ok lib (ch_address (msg_channel msg)) = true ->
  net_MakeHTTPRequest (post_request (ch_address (msg_channel msg)) body) (host w)
    = ((rr, err), h') ->
  SendMsg lib msg w =
    (Done (mkStatus (msg_channel msg) (msg_id msg) "" MsgWired
             [WithError (NewChannelLogFromRR "Message Sent" (msg_channel msg)
                                             (msg_id msg) rr)
                        "Message Send Error" err], None),
     mkWorld h' (calls w ++ [CallNewMsgStatusForID (msg_channel msg) (msg_id msg) MsgErrored;
                             CallMakeHTTPRequest
                               (post_request (ch_address (msg_channel msg)) body)])).
Proof.
  intros Htext Hjson Hurl Hnet. apply String.eqb_neq in Htext.
  unfold SendMsg, func, bind, NewMsgStatusForID, invoke. simpl host.
  rewrite Htext. simpl negb. cbv iota.
  unfold call, sendMsgPart, func. rewrite Hjson.
  unfold http_NewRequest. rewrite Hurl.
  unfold bind, MakeHTTPRequest, invoke. simpl host. simpl calls.
  fold (post_request (ch_address (msg_channel msg)) body).
  cbn [negb host calls]. rewrite Hnet.
  simpl. rewrite <- app_assoc. reflexivity.
Qed.


(** X14.  When the channel address does not parse as a URL, the request
    that [http.NewRequest] returns is nil and setting its header panics:
    [SendMsg] panics with the status built and no HTTP request made. *)
Theorem SendMsg_bad_url_panics (msg : Msg) (w : World W) (body : string) :
  msg_text msg <> "" ->
  json_Marshal lib (SendMsg_data lib msg) = inr body ->
  url_Parse_ok lib (ch_address (msg_channel msg)) = false ->
  SendMsg lib msg w =
    (Panic "nil pointer dereference",
     mkWorld (host w)
             (calls w ++ [CallNewMsgStatusForID (msg_channel msg) (msg_id msg) MsgErrored])) /\
  posted (calls (snd (SendMsg lib msg w))) = posted (calls w).
Proof.
  intros Htext Hjson Hurl.
  rewrite (@SendMsg_run_bad_url msg w body Htext Hjson Hurl).
  split; [reflexivity|]. cbn. rewrite posted_app. apply app_nil_r.
Qed.

(** X15.  Whatever the message and the host: [SendMsg] makes at most one
    HTTP request, touches neither the stores nor the response writer, and
    never returns an error.  When it returns, the status is for the
    message's channel and id, has the empty external id, at most one log,
    and is "wired" exactly when the text is not empty and the payload could
    be serialised, "errored" otherwise.  It panics only for a channel
    address that does not parse, before any request. *)
Theorem SendMsg_outcomes (msg : Msg) (w : World W) :
  exists new,
    calls (snd (SendMsg lib msg w)) = (calls w ++ new)%list /\
    List.length (posted new) <= 1 /\
    written new = [] /\ status_written new = [] /\ responded new = [] /\
    match fst (SendMsg lib msg w) with
    | Done (st, e) =>
        e = None /\
        status_channel st = msg_channel msg /\
        status_id st = msg_id msg /\
        status_externalID st = "" /\
        List.length (status_logs st) <= 1 /\
        (status_value st = MsgWired \/ status_value st = MsgErrored) /\
        (status_value st = MsgWired <->
           msg_text msg <> "" /\
           exists body, json_Marshal lib (SendMsg_data lib msg) = inr body)
    | Panic _ =>
        msg_text msg <> "" /\
        url_Parse_ok lib (ch_address (msg_channel msg)) = false /\
        posted new = []
    end.
Proof.
  destruct (msg_text msg =? "") eqn:Htext.
  - apply String.eqb_eq in Htext.
    rewrite (@SendMsg_run_empty msg w Htext).
    eexists. split; [reflexivity|]. cbn.
    repeat split; auto; try lia; try discriminate.
    intros [H _]. contradiction.
  - apply String.eqb_neq in Htext.
    destruct (json_Marshal lib (SendMsg_data lib msg)) as [err|body] eqn:Hjson.
    + rewrite (@SendMsg_run_marshal_error msg w err Htext Hjson).
      eexists. split; [reflexivity|]. cbn.
      repeat split; auto; try lia; try discriminate.
      intros (_ & b & Hb). discriminate.
    + destruct (url_Parse_ok lib (ch_address (msg_channel msg))) eqn:Hurl.
      * destruct (net_MakeHTTPRequest (post_request (ch_address (msg_channel msg)) body)
                                      (host w)) as [[rr err] h'] eqn:Hnet.
        rewrite (@SendMsg_run_posted msg w body rr err h' Htext Hjson Hurl Hnet).
        eexists. split; [reflexivity|]. cbn.
        repeat split; auto; try lia. exists body. reflexivity.
      * rewrite (@SendMsg_run_bad_url msg w body Htext Hjson Hurl).
        eexists. split; [reflexivity|]. cbn. repeat split; auto.
Qed.

End SendMore.

(** ** registerUser, the other paths *)

Section RegisterMore.
Context {W : Type} {BE : Backend W} {RW : ResponseWriter W}.
Variable lib : Library.
Variable channel : Channel.

Ltac run_registerUser :=
  unfold registerUser, func, index0, MustParse, bind, ret, return_, panic,
         GetContact, AddLanguageToContact, WriteAndLogRequestError,
         WriteAndLogRequestIgnored, WriteDataResponse, invoke.

(** X2.  Each failure on the way (the URN that cannot be built, the contact
    that cannot be fetched, the language that cannot be attached) is
    answered with a request error carrying that very error, and the handler
    stops there: after a URN failure the backend is not called, after a
    GetContact failure neither the language is parsed nor
    AddLanguageToContact called. *)
Theorem registerUser_error_paths (r : HTTPRequest) (payload : userPayload)
    (w : World W) (scheme : string) (rest : list string) :
  DecodeAndValidateJSON_user lib r = inr payload ->
  URN_ payload <> "" ->
  ch_schemes channel = scheme :: rest ->
  (forall errURN,
     NewURNFromParts lib scheme (URN_ payload) "" "" = inl errURN ->
     registerUser lib channel r w =
       (Done ([], fst (resp_Write (RequestError errURN) (host w))),
        answered (RequestError errURN) (host w) (calls w))) /\
  (forall urn errGetContact h1,
     NewURNFromParts lib scheme (URN_ payload) "" "" = inr urn ->
     store_GetContact channel urn "" "" (host w) = (inl errGetContact, h1) ->
     registerUser lib channel r w =
       (Done ([], fst (resp_Write (RequestError errGetContact) h1)),
        answered (RequestError errGetContact) h1
                 (calls w ++ [CallGetContact channel urn]))) /\
  (forall urn contact h1 tag errLang h2,
     NewURNFromParts lib scheme (URN_ payload) "" "" = inr urn ->
     store_GetContact channel urn "" "" (host w) = (inr contact, h1) ->
     language_Parse lib (Language payload) = inr tag ->
     store_AddLanguageToContact channel (Tag_Base_ISO3 lib tag) contact h1
       = (inl errLang, h2) ->
     registerUser lib channel r w =
       (Done ([], fst (resp_Write (RequestError errLang) h2)),
        answered (RequestError errLang) h2
                 (calls w ++ [CallGetContact channel urn;
                              CallAddLanguageToContact channel
                                (Tag_Base_ISO3 lib tag) contact]))).
Proof.
  intros Hdec Hurn Hsch. apply String.eqb_neq in Hurn.
  repeat split.
  - intros errURN Hnew. run_registerUser.
    rewrite Hdec, Hurn, Hsch. cbv beta iota. rewrite Hnew.
    unfold answered. destruct (resp_Write (RequestError errURN) (host w)); reflexivity.
  - intros urn errGetContact h1 Hnew Hget. run_registerUser.
    rewrite Hdec, Hurn, Hsch. cbv beta iota. rewrite Hnew, Hget. cbn [host calls].
    unfold answered. destruct (resp_Write (RequestError errGetContact) h1); reflexivity.
  - intros urn contact h1 tag errLang h2 Hnew Hget Hparse Hlang. run_registerUser.
    rewrite Hdec, Hurn, Hsch. cbv beta iota. rewrite Hnew, Hget, Hparse.
    cbn [host calls]. rewrite Hlang. cbn [host calls].
    unfold answered. destruct (resp_Write (RequestError errLang) h2). cbn [fst snd].
    rewrite <- !app_assoc. reflexivity.
Qed.

(** X3.  A registration that goes through: the contact is fetched for the
    URN built from the channel's first scheme and the payload's urn, the
    ISO-3 code of the parsed tag's base language is attached to that
    contact, and the answer is the data response "Events Handled" whose
    only item is the contact's UUID; no event is returned. *)
Theorem registerUser_success (r : HTTPRequest) (payload : userPayload)
    (w : World W) (scheme : string) (rest : list string) (urn : URN)
    (contact : Contact) (h1 h2 : W) (tag : Tag lib) (l : string) :
  DecodeAndValidateJSON_user lib r = inr payload ->
  URN_ payload <> "" ->
  ch_schemes channel = scheme :: rest ->
  NewURNFromParts lib scheme (URN_ payload) "" "" = inr urn ->
  store_GetContact channel urn "" "" (host w) = (inr contact, h1) ->
  language_Parse lib (Language payload) = inr tag ->
  store_AddLanguageToContact channel (Tag_Base_ISO3 lib tag) contact h1 = (inr l, h2) ->
  let resp := DataResponse http_StatusOK "Events Handled"
                [EventRegisteredContactData (contact_uuid contact)] in
  registerUser lib channel r w =
    (Done ([], fst (resp_Write resp h2)),
     answered resp h2
              (calls w ++ [CallGetContact channel urn;
                           CallAddLanguageToContact channel
                             (Tag_Base_ISO3 lib tag) contact])).
Proof.
  intros Hdec Hurn Hsch Hnew Hget Hparse Hlang resp.
  apply String.eqb_neq in Hurn. run_registerUser.
  rewrite Hdec, Hurn, Hsch. cbv beta iota. rewrite Hnew, Hget, Hparse.
  cbn [host calls]. rewrite Hlang. cbn [host calls app]. fold resp.
  unfold answered. destruct (resp_Write resp h2). cbn [fst snd].
  rewrite <- !app_assoc. reflexivity.
Qed.

(** X4.  On a channel without any scheme, a registration with a non-empty
    urn panics on [channel.Schemes()[0]], before any call and with no
    response written. *)
Theorem registerUser_no_scheme_panics (r : HTTPRequest) (payload : userPayload)
    (w : World W) :
  DecodeAndValidateJSON_user lib r = inr payload ->
  URN_ payload <> "" ->
  ch_schemes channel = [] ->
  registerUser lib channel r w = (Panic "index out of range", w).
Proof.
  intros Hdec Hurn Hsch. apply String.eqb_neq in Hurn. run_registerUser.
  rewrite Hdec, Hurn, Hsch. reflexivity.
Qed.

(** X5.  Whatever the request and the host: [registerUser] returns no
    event, makes no HTTP request and writes neither message nor status.
    When it returns, it has written exactly one response; when it panics,
    none. *)
Theorem registerUser_one_response (r : HTTPRequest) (w : World W) :
  exists new,
    calls (snd (registerUser lib channel r w)) = (calls w ++ new)%list /\
    posted new = [] /\ written new = [] /\ status_written new = [] /\
    match fst (registerUser lib channel r w) with
    | Done (events, _) => events = [] /\ exists resp, responded new = [resp]
    | Panic _ => responded new = []
    end.
Proof.
  run_registerUser.
  destruct (DecodeAndValidateJSON_user lib r) as [err|payload].
  { destruct (resp_Write (RequestError err) (host w)).
    eexists. split; [reflexivity|]. cbn. repeat split; eauto. }
  destruct (URN_ payload =? "").
  { destruct (resp_Write _ (host w)).
    eexists. split; [reflexivity|]. cbn. repeat split; eauto. }
  destruct (ch_schemes channel) as [|scheme rest].
  { exists []. rewrite app_nil_r. cbn. repeat split; reflexivity. }
  destruct (NewURNFromParts lib scheme (URN_ payload) "" "") as [errURN|urn].
  { destruct (resp_Write _ (host w)).
    eexists. split; [reflexivity|]. cbn. repeat split; eauto. }
  destruct (store_GetContact channel urn "" "" (host w)) as [[errGet|contact] h1].
  { cbn [host calls]. destruct (resp_Write _ h1).
    eexists. cbn [snd calls]. rewrite <- app_assoc. split; [reflexivity|].
    cbn. repeat split; eauto. }
  destruct (language_Parse lib (Language payload)) as [e|tag].
  { eexists. split; [reflexivity|]. cbn. repeat split; reflexivity. }
  cbn [host calls].
  destruct (store_AddLanguageToContact channel (Tag_Base_ISO3 lib tag) contact h1)
    as [[errLang|l] h2]; cbn [host calls]; destruct (resp_Write _ h2);
    eexists; cbn [snd calls]; rewrite <- !app_assoc; (split; [reflexivity|]);
    cbn; repeat split; eauto.
Qed.

End RegisterMore.

(** ** receiveMessage, the other paths *)

Lemma status_written_app (a b : list Call) :
  status_written (a ++ b) = (status_written a ++ status_written b)%list.
Proof.
  induction a as [|c a IH]; simpl; [reflexivity|].
  destruct c; simpl; rewrite IH; reflexivity.
Qed.

Section ReceiveMore.
Context {W : Type} {BE : Backend W} {RW : ResponseWriter W}.
Variable lib : Library.
Variable channel : Channel.

Lemma inbound_only_app (a b : list Call) :
  inbound_only a -> inbound_only b -> inbound_only (a ++ b).
Proof.
  intros [Pa Ca] [Pb Cb]. split.
  - rewrite posted_app, Pa, Pb. reflexivity.
  - rewrite existsb_app, Ca, Cb. reflexivity.
Qed.

Lemma receiveMessage_messages_trace (messages : list moMessage) :
  forall events data w o w',
  forRange (receiveMessage_message lib channel) messages (events, data) w = (o, w') ->
  exists new, calls w' = (calls w ++ new)%list /\
    status_written new = [] /\ inbound_only new /\
    match o with
    | Normal (events', data') =>
        events' = (events ++ map EvMsg (written new))%list /\
        data' = (data ++ map MsgReceiveData (written new))%list /\
        List.length (written new) = List.length (notFromMe messages) /\
        responded new = []
    | Returned (evs, err) =>
        evs = [] /\
        ((responded new = [] /\ exists e, err = Some e) \/
         (exists e, responded new = [RequestError e]))
    | Panicked _ => False
    end.
Proof.
  induction messages as [|m l IH]; intros events data w o w' Hrun.
  - cbn in Hrun. inversion Hrun; subst. exists []. rewrite app_nil_r.
    cbn. rewrite !app_nil_r. repeat split; reflexivity.
  - cbn [forRange] in Hrun. unfold bind in Hrun.
    unfold notFromMe. cbn [filter]. fold (notFromMe l).
    destruct (FromMe m) eqn:Hme.
    + rewrite receiveMessage_message_fromMe in Hrun by exact Hme.
      cbn [negb]. apply IH. exact Hrun.
    + cbn [negb].
      destruct (NewWhatsAppURN lib (strings_Replace1 (Author m) "@c.us" ""))
        as [e|urn] eqn:Hurn.
      * rewrite (@receiveMessage_message_badURN _ _ _ lib channel m events data w e Hme Hurn) in Hrun.
        inversion Hrun; subst. eexists. split; [reflexivity|].
        cbn. repeat split; try reflexivity. right. exists e. reflexivity.
      * rewrite (@receiveMessage_message_ok _ _ _ lib channel m events data w urn Hme Hurn) in Hrun.
        destruct (store_WriteMsg _ (host w)) as [[e|] h'] eqn:Hw.
        -- inversion Hrun; subst. eexists. split; [reflexivity|].
           cbn. repeat split; try reflexivity. left. split; [reflexivity|].
           exists e. reflexivity.
        -- apply IH in Hrun. destruct Hrun as (new & Hcalls & Hst & Hin & Ho).
           cbn [calls] in Hcalls. rewrite <- app_assoc in Hcalls.
           eexists. split; [exact Hcalls|].
           rewrite status_written_app, Hst.
           split; [reflexivity|].
           split; [apply inbound_only_app; [split; reflexivity|exact Hin]|].
           rewrite written_app, responded_app. cbn.
           destruct o as [[events' data']|[evs err]|msg].
           ++ destruct Ho as (He & Hd & Hlen & Hre).
              rewrite <- app_assoc in He, Hd.
              repeat split; try assumption. cbn. rewrite Hlen. reflexivity.
           ++ exact Ho.
           ++ exact Ho.
Qed.

Lemma receiveMessage_acks_trace (acks : list moAck) :
  forall events data w o w',
  forRange (receiveMessage_ack channel) acks (events, data) w = (o, w') ->
  exists new, calls w' = (calls w ++ new)%list /\
    written new = [] /\ responded new = [] /\ inbound_only new /\
    (exists n, Forall2 (acknowledges channel) (firstn n acks) (status_written new)) /\
    match o with
    | Normal (events', data') =>
        Forall2 (acknowledges channel) acks (status_written new) /\
        exists sts items,
          events' = (events ++ map EvStatus sts)%list /\
          incl sts (status_written new) /\
          data' = (data ++ items)%list /\
          List.length items = List.length acks
    | Returned (evs, err) =>
        evs = [] /\ exists e, err = Some e /\ e <> ErrMsgNotFound
    | Panicked _ => False
    end.
Proof.
  induction acks as [|a l IH]; intros events data w o w' Hrun.
  - cbn in Hrun. inversion Hrun; subst. exists []. rewrite app_nil_r.
    cbn. repeat split; try reflexivity.
    + exists 0. constructor.
    + constructor.
    + exists [], []. rewrite !app_nil_r. repeat split; try reflexivity.
      intros x [].
  - cbn [forRange] in Hrun. unfold bind in Hrun.
    rewrite receiveMessage_ack_eq in Hrun.
    destruct (store_WriteMsgStatus _ (host w)) as [[[|msg]|] h'] eqn:Hw.
    + apply IH in Hrun.
      destruct Hrun as (new & Hcalls & Hwr & Hre & Hin & [n Hn] & Ho).
      cbn [calls] in Hcalls. rewrite <- app_assoc in Hcalls.
      eexists. split; [exact Hcalls|].
      rewrite written_app, responded_app, status_written_app, Hwr, Hre. cbn.
      split; [reflexivity|]. split; [reflexivity|].
      split; [destruct Hin as [HP HC]; split; cbn; assumption|].
      split; [exists (S n); cbn; constructor; [reflexivity|exact Hn]|].
      destruct o as [[events' data']|[evs err]|msg]; try exact Ho.
      destruct Ho as (Hall & sts & items & He & Hincl & Hd & Hlen).
      split; [constructor; [reflexivity|exact Hall]|].
      exists sts, (InfoData "message not found, ignored" :: items).
      rewrite <- app_assoc in Hd.
      repeat split; try assumption.
      * intros x Hx. right. apply Hincl. exact Hx.
      * cbn. rewrite Hlen. reflexivity.
    + inversion Hrun; subst. eexists. split; [reflexivity|].
      cbn. repeat split; try reflexivity.
      * exists 1. cbn. constructor; [reflexivity|constructor].
      * eexists. split; [reflexivity|discriminate].
    + apply IH in Hrun.
      destruct Hrun as (new & Hcalls & Hwr & Hre & Hin & [n Hn] & Ho).
      cbn [calls] in Hcalls. rewrite <- app_assoc in Hcalls.
      eexists. split; [exact Hcalls|].
      rewrite written_app, responded_app, status_written_app, Hwr, Hre. cbn.
      split; [reflexivity|]. split; [reflexivity|].
      split; [destruct Hin as [HP HC]; split; cbn; assumption|].
      split; [exists (S n); cbn; constructor; [reflexivity|exact Hn]|].
      destruct o as [[events' data']|[evs err]|msg]; try exact Ho.
      destruct Ho as (Hall & sts & items & He & Hincl & Hd & Hlen).
      split; [constructor; [reflexivity|exact Hall]|].
      eexists (_ :: sts), (_ :: items).
      rewrite <- app_assoc in He, Hd.
      split; [exact He|].
      split; [intros x [<-|Hx]; [left; reflexivity|right; apply Hincl; exact Hx]|].
      split; [exact Hd|]. cbn. rewrite Hlen. reflexivity.
Qed.

Lemma receiveMessage_payload_trace (p : moPayload) (w : World W) o w' :
  receiveMessage_payload lib channel p w = (o, w') ->
  exists new1 new2,
    calls w' = (calls w ++ new1 ++ new2)%list /\
    status_written new1 = [] /\ written new2 = [] /\
    inbound_only (new1 ++ new2) /\
    (exists n, Forall2 (acknowledges channel) (firstn n (Ack p)) (status_written new2)) /\
    match o with
    | Normal (events, _) =>
        exists sts items,
          responded (new1 ++ new2) =
            [DataResponse http_StatusOK "Events Handled"
                          (map MsgReceiveData (written new1) ++ items)] /\
          List.length (written new1) = List.length (notFromMe (Messages p)) /\
          List.length items = List.length (Ack p) /\
          events = (map EvMsg (written new1) ++ map EvStatus sts)%list /\
          incl sts (status_written new2) /\
          Forall2 (acknowledges channel) (Ack p) (status_written new2)
    | Returned (evs, e) =>
        evs = [] /\
        ((responded (new1 ++ new2) = [] /\ exists err, e = Some err) \/
         (exists err, responded (new1 ++ new2) = [RequestError err]) \/
         (exists d, responded (new1 ++ new2) = [RequestIgnored d]))
    | Panicked _ => False
    end.
Proof.
  unfold receiveMessage_payload. intros Hrun.
  destruct (InstanceID p =? "").
  - unfold bind, WriteAndLogRequestIgnored, invoke, return_ in Hrun.
    destruct (resp_Write _ (host w)) as [e h]. inversion Hrun; subst.
    exists [], [CallRespond (RequestIgnored "Ignoring request, no message")].
    cbn. repeat split; try reflexivity.
    + exists 0. constructor.
    + right. right. eexists. reflexivity.
  - unfold bind at 1 in Hrun.
    destruct (forRange (receiveMessage_message lib channel) (Messages p) ([], []) w)
      as [o1 w1] eqn:H1.
    apply receiveMessage_messages_trace in H1.
    destruct H1 as (new1 & Hc1 & Hst1 & Hin1 & Ho1).
    destruct o1 as [[events1 data1]|[evs1 err1]|msg1]; [| |contradiction].
    + destruct Ho1 as (He1 & Hd1 & Hlen1 & Hre1). cbn [app] in He1, Hd1.
      unfold bind at 1 in Hrun.
      destruct (forRange (receiveMessage_ack channel) (Ack p) (events1, data1) w1)
        as [o2 w2] eqn:H2.
      apply receiveMessage_acks_trace in H2.
      destruct H2 as (new2 & Hc2 & Hwr2 & Hre2 & Hin2 & Hn2 & Ho2).
      destruct o2 as [[events2 data2]|[evs2 err2]|msg2]; [| |contradiction].
      * destruct Ho2 as (Hall & sts & items & He2 & Hincl & Hd2 & Hlen2).
        unfold bind, WriteDataResponse, invoke, ret in Hrun.
        destruct (resp_Write _ (host w2)) as [e h]. inversion Hrun; subst.
        exists new1, (new2 ++ [CallRespond
                 (DataResponse http_StatusOK "Events Handled"
                    (map MsgReceiveData (written new1) ++ items))])%list.
        cbn [calls]. rewrite Hc2, Hc1, <- !app_assoc.
        split; [reflexivity|]. split; [exact Hst1|].
        rewrite written_app, status_written_app, !responded_app, Hwr2, Hre1, Hre2.
        cbn. rewrite app_nil_r.
        split; [reflexivity|].
        split; [apply inbound_only_app; [exact Hin1|];
                apply inbound_only_app; [exact Hin2|split; reflexivity]|].
        split; [exact Hn2|].
        exists sts, items. repeat split; assumption.
      * destruct Ho2 as (He2 & err & Herr & Hne). inversion Hrun; subst.
        exists new1, new2. rewrite Hc2, Hc1, <- app_assoc.
        split; [reflexivity|]. split; [exact Hst1|]. split; [exact Hwr2|].
        split; [apply inbound_only_app; assumption|].
        split; [exact Hn2|].
        split; [reflexivity|]. left. rewrite responded_app, Hre1, Hre2.
        split; [reflexivity|]. exists err. reflexivity.
    + destruct Ho1 as (He1 & Hre1). inversion Hrun; subst.
      exists new1, []. rewrite !app_nil_r.
      split; [exact Hc1|]. split; [exact Hst1|]. split; [reflexivity|].
      split; [exact Hin1|]. split; [exists 0; constructor|].
      split; [reflexivity|].
      destruct Hre1 as [Hre1|Hre1]; [left; exact Hre1|right; left; exact Hre1].
Qed.

(** X1.  A request whose body cannot be decoded is answered with a request
    error carrying the decoding error, by either endpoint, and nothing else
    is done: that response is the only call. *)
Theorem webhook_decode_error (r : HTTPRequest) (w : World W) :
  (forall err, DecodeAndValidateJSON_user lib r = inl err ->
     registerUser lib channel r w =
       (Done ([], fst (resp_Write (RequestError err) (host w))),
        answered (RequestError err) (host w) (calls w))) /\
  (forall err, DecodeAndValidateJSON_mo lib r = inl err ->
     receiveMessage lib channel r w =
       (Done ([], fst (resp_Write (RequestError err) (host w))),
        answered (RequestError err) (host w) (calls w))).
Proof.
  split; intros err Hdec.
  - unfold registerUser, func, bind, WriteAndLogRequestError, invoke, return_, answered.
    rewrite Hdec. destruct (resp_Write (RequestError err) (host w)); reflexivity.
  - unfold receiveMessage, func, bind, WriteAndLogRequestError, invoke, return_, answered.
    rewrite Hdec. destruct (resp_Write (RequestError err) (host w)); reflexivity.
Qed.

(** X6.  A batch without instance id is ignored as a whole: whatever
    messages and acknowledgements it holds, the only call is the "ignored"
    response, and no event is returned. *)
Theorem receiveMessage_no_instance_ignored (r : HTTPRequest) (p : moPayload)
    (w : World W) :
  DecodeAndValidateJSON_mo lib r = inr p ->
  InstanceID p = "" ->
  let ignored := RequestIgnored "Ignoring request, no message" in
  receiveMessage lib channel r w =
    (Done ([], fst (resp_Write ignored (host w))), answered ignored (host w) (calls w)) /\
  written (calls (snd (receiveMessage lib channel r w))) = written (calls w) /\
  status_written (calls (snd (receiveMessage lib channel r w))) = status_written (calls w).
Proof.
  intros Hdec Hinst ignored.
  assert (E : receiveMessage lib channel r w =
    (Done ([], fst (resp_Write ignored (host w))), answered ignored (host w) (calls w))).
  { unfold receiveMessage, func, receiveMessage_payload. rewrite Hdec, Hinst. cbn [String.eqb].
    unfold bind, WriteAndLogRequestIgnored, invoke, return_, answered. fold ignored.
    destruct (resp_Write ignored (host w)); reflexivity. }
  split; [exact E|]. rewrite E. unfold answered. cbn [snd calls].
  rewrite written_app, status_written_app. cbn. rewrite !app_nil_r.
  split; reflexivity.
Qed.

(** X7.  An entry whose author does not make a valid URN ends the call: the
    request error for it is the last call, so the entry itself, the entries
    after it and all acknowledgements are left unprocessed and no event is
    returned, while the entries before it stay written. *)
Theorem receiveMessage_bad_author_aborts (r : HTTPRequest) (p : moPayload)
    (pre post : list moMessage) (m : moMessage) (w w1 : World W)
    (events : list Event) (data : list Data) (errURN : Err) :
  DecodeAndValidateJSON_mo lib r = inr p ->
  InstanceID p <> "" ->
  Messages p = (pre ++ m :: post)%list ->
  forRange (receiveMessage_message lib channel) pre ([], []) w
    = (Normal (events, data), w1) ->
  FromMe m = false ->
  NewWhatsAppURN lib (strings_Replace1 (Author m) "@c.us" "") = inl errURN ->
  receiveMessage lib channel r w =
    (Done ([], fst (resp_Write (RequestError errURN) (host w1))),
     answered (RequestError errURN) (host w1) (calls w1)) /\
  exists earlier, calls w1 = (calls w ++ earlier)%list /\
                  written earlier = msgEvents events /\
                  List.length (written earlier) = List.length (notFromMe pre).
Proof.
  intros Hdec Hinst Hmsgs Hpre Hme Hurn. split.
  - unfold receiveMessage, func. rewrite Hdec. unfold receiveMessage_payload.
    apply String.eqb_neq in Hinst. rewrite Hinst, Hmsgs.
    unfold bind at 1. rewrite forRange_app.
    unfold bind at 1. rewrite Hpre. cbn [forRange].
    unfold bind at 1.
    rewrite (@receiveMessage_message_badURN _ _ _ lib channel m events data w1 errURN Hme Hurn).
    reflexivity.
  - apply receiveMessage_messages_trace in Hpre.
    destruct Hpre as (earlier & Hc & _ & _ & He & _ & Hlen & _).
    exists earlier. split; [exact Hc|]. split; [|exact Hlen].
    rewrite He. cbn [app]. clear.
    induction (written earlier) as [|x xs IH]; cbn; [|rewrite <- IH]; reflexivity.
Qed.

(** X8.  A status write that fails with an error other than "message not
    found" ends the call with that error: no response is written and no
    event is returned, not even for the messages of the same batch, which
    were written before the acknowledgements were looked at. *)
Theorem receiveMessage_status_failure_aborts (r : HTTPRequest) (p : moPayload)
    (pre post : list moAck) (a : moAck) (w w1 w2 : World W)
    (events events2 : list Event) (data data2 : list Data) (e : Err) (h' : W) :
  DecodeAndValidateJSON_mo lib r = inr p ->
  InstanceID p <> "" ->
  forRange (receiveMessage_message lib channel) (Messages p) ([], []) w
    = (Normal (events, data), w1) ->
  Ack p = (pre ++ a :: post)%list ->
  forRange (receiveMessage_ack channel) pre (events, data) w1
    = (Normal (events2, data2), w2) ->
  let st := mkStatus channel NilMsgID (ackID a) (receiveMessage_status a) [] in
  store_WriteMsgStatus st (host w2) = (Some e, h') ->
  e <> ErrMsgNotFound ->
  receiveMessage lib channel r w =
    (Done ([], Some e),
     mkWorld h' (calls w2 ++
                 [CallNewMsgStatusForExternalID channel (ackID a) (receiveMessage_status a);
                  CallWriteMsgStatus st])) /\
  responded (calls (snd (receiveMessage lib channel r w))) = responded (calls w) /\
  exists earlier, calls w2 = (calls w ++ earlier)%list /\
                  List.length (written earlier) = List.length (notFromMe (Messages p)).
Proof.
  intros Hdec Hinst Hmsgs Hack Hpre st Hwrite Hne.
  assert (E : receiveMessage lib channel r w =
    (Done ([], Some e),
     mkWorld h' (calls w2 ++
                 [CallNewMsgStatusForExternalID channel (ackID a) (receiveMessage_status a);
                  CallWriteMsgStatus st]))).
  { unfold receiveMessage, func. rewrite Hdec. unfold receiveMessage_payload.
    apply String.eqb_neq in Hinst. rewrite Hinst.
    unfold bind at 1. rewrite Hmsgs.
    unfold bind at 1. rewrite Hack, forRange_app.
    unfold bind at 1. rewrite Hpre. cbn [forRange].
    unfold bind at 1. rewrite receiveMessage_ack_eq. fold st. rewrite Hwrite.
    destruct e; [contradiction|reflexivity]. }
  apply receiveMessage_messages_trace in Hmsgs.
  destruct Hmsgs as (new1 & Hc1 & _ & _ & _ & _ & Hlen & Hre1).
  apply receiveMessage_acks_trace in Hpre.
  destruct Hpre as (new2 & Hc2 & Hwr2 & Hre2 & _).
  split; [exact E|]. split.
  - rewrite E. cbn [snd calls].
    rewrite Hc2, Hc1, !responded_app, Hre1, Hre2. cbn. rewrite !app_nil_r. reflexivity.
  - exists (new1 ++ new2)%list. rewrite Hc2, Hc1, <- app_assoc.
    split; [reflexivity|]. rewrite written_app, Hwr2, app_nil_r. exact Hlen.
Qed.

(** X9.  Whatever the request and the host: [receiveMessage] does not
    panic, makes no HTTP request and never reaches the contact store, and
    writes at most one response.  When it writes none, it returns an error
    and no event; and events are only ever returned together with the data
    response "Events Handled". *)
Theorem receiveMessage_outcomes (r : HTTPRequest) (w : World W) :
  exists events e new,
    fst (receiveMessage lib channel r w) = Done (events, e) /\
    calls (snd (receiveMessage lib channel r w)) = (calls w ++ new)%list /\
    inbound_only new /\
    List.length (responded new) <= 1 /\
    (responded new = [] -> events = [] /\ e <> None) /\
    (events <> [] ->
       exists data, responded new = [DataResponse http_StatusOK "Events Handled" data]).
Proof.
  unfold receiveMessage, func.
  destruct (DecodeAndValidateJSON_mo lib r) as [err|p].
  - unfold bind, WriteAndLogRequestError, invoke, return_.
    destruct (resp_Write (RequestError err) (host w)) as [e h].
    eexists _, _, _. cbn [fst snd calls]. split; [reflexivity|].
    split; [reflexivity|]. cbn.
    repeat split; auto; try discriminate. intros H; contradiction.
  - destruct (receiveMessage_payload lib channel p w) as [o w'] eqn:Hrun.
    apply receiveMessage_payload_trace in Hrun.
    destruct Hrun as (new1 & new2 & Hc & _ & _ & Hin & _ & Ho).
    destruct o as [[events e]|[evs e]|msg]; [| |contradiction].
    + destruct Ho as (sts & items & Hre & _).
      exists events, e, (new1 ++ new2)%list. cbn [fst snd].
      split; [reflexivity|]. split; [exact Hc|]. split; [exact Hin|].
      rewrite Hre. cbn. repeat split; auto; try discriminate.
      intros _. eexists. reflexivity.
    + destruct Ho as (-> & Hre).
      exists [], e, (new1 ++ new2)%list. cbn [fst snd].
      split; [reflexivity|]. split; [exact Hc|]. split; [exact Hin|].
      destruct Hre as [[Hre [err ->]]|[[err Hre]|[d Hre]]]; rewrite Hre; cbn;
        repeat split; auto; try discriminate; intros H; contradiction.
Qed.

(** X10.  Every status that [receiveMessage] writes comes, in order, from
    an acknowledgement of the batch: it carries the acknowledgement's id as
    external id and the value "sent" or "delivered" of the acknowledgement,
    "queued" for any other status string.  When the batch is answered with
    the data response, one status was written for each acknowledgement. *)
Theorem receiveMessage_ack_statuses (r : HTTPRequest) (p : moPayload) (w : World W) :
  DecodeAndValidateJSON_mo lib r = inr p ->
  (exists new,
     calls (snd (receiveMessage lib channel r w)) = (calls w ++ new)%list /\
     (exists n, Forall2 (acknowledges channel) (firstn n (Ack p)) (status_written new)) /\
     (forall code label data, responded new = [DataResponse code label data] ->
        Forall2 (acknowledges channel) (Ack p) (status_written new))) /\
  (forall a st, acknowledges channel a st ->
     status_externalID st = ackID a /\
     (ackStatus a = "sent" -> status_value st = MsgSent) /\
     (ackStatus a = "delivered" -> status_value st = MsgDelivered) /\
     (ackStatus a <> "sent" -> ackStatus a <> "delivered" ->
        status_value st = MsgQueued)).
Proof.
  intros Hdec. split.
  - unfold receiveMessage, func. rewrite Hdec.
    destruct (receiveMessage_payload lib channel p w) as [o w'] eqn:Hrun.
    apply receiveMessage_payload_trace in Hrun.
    destruct Hrun as (new1 & new2 & Hc & Hst1 & _ & _ & Hn & Ho).
    exists (new1 ++ new2)%list.
    rewrite status_written_app, Hst1. cbn [app].
    destruct o as [[events e]|[evs e]|msg]; [| |contradiction]; cbn [snd].
    + split; [exact Hc|]. split; [exact Hn|].
      intros _ _ _ _. destruct Ho as (sts & items & _ & _ & _ & _ & _ & Hall).
      exact Hall.
    + split; [exact Hc|]. split; [exact Hn|].
      intros code label data Hd. destruct Ho as (_ & Hre).
      destruct Hre as [[Hre _]|[[err Hre]|[d Hre]]]; rewrite Hre in Hd; discriminate.
  - intros a st ->. cbn [status_externalID status_value].
    unfold receiveMessage_status. split; [reflexivity|].
    split; [intros ->; reflexivity|].
    split; [intros ->; reflexivity|].
    intros Hs Hd. apply String.eqb_neq in Hs, Hd. rewrite Hs, Hd. reflexivity.
Qed.

(** X11.  The calls of [receiveMessage] fall in two parts: first the
    message entries, with no status write, then the acknowledgements and the
    response, with no message write.  The data response, when written, is
    200 "Events Handled" and lists one receive item per entry that is not
    fromMe, in order, followed by one item per acknowledgement; the events
    returned are the message events followed by status events taken from
    the statuses written. *)
Theorem receiveMessage_accepted_shape (r : HTTPRequest) (p : moPayload) (w : World W) :
  DecodeAndValidateJSON_mo lib r = inr p ->
  exists events e new1 new2,
    fst (receiveMessage lib channel r w) = Done (events, e) /\
    calls (snd (receiveMessage lib channel r w)) = (calls w ++ new1 ++ new2)%list /\
    status_written new1 = [] /\ written new2 = [] /\
    (forall code label data,
       responded (new1 ++ new2) = [DataResponse code label data] ->
       code = http_StatusOK /\ label = "Events Handled" /\
       exists sts items,
         data = (map MsgReceiveData (written new1) ++ items)%list /\
         List.length (written new1) = List.length (notFromMe (Messages p)) /\
         List.length items = List.length (Ack p) /\
         events = (map EvMsg (written new1) ++ map EvStatus sts)%list /\
         incl sts (status_written new2)).
Proof.
  intros Hdec. unfold receiveMessage, func. rewrite Hdec.
  destruct (receiveMessage_payload lib channel p w) as [o w'] eqn:Hrun.
  apply receiveMessage_payload_trace in Hrun.
  destruct Hrun as (new1 & new2 & Hc & Hst1 & Hwr2 & _ & _ & Ho).
  destruct o as [[events e]|[evs e]|msg]; [| |contradiction]; cbn [fst snd].
  - exists events, e, new1, new2.
    split; [reflexivity|]. split; [exact Hc|]. split; [exact Hst1|].
    split; [exact Hwr2|].
    destruct Ho as (sts & items & Hre & Hlen & Hil & He & Hincl & _).
    intros code label data Hd. rewrite Hre in Hd. injection Hd as <- <- <-.
    split; [reflexivity|]. split; [reflexivity|].
    exists sts, items. repeat split; assumption.
  - exists evs, e, new1, new2.
    split; [reflexivity|]. split; [exact Hc|]. split; [exact Hst1|].
    split; [exact Hwr2|].
    intros code label data Hd. destruct Ho as (_ & Hre).
    destruct Hre as [[Hre _]|[[err Hre]|[d Hre]]]; rewrite Hre in Hd; discriminate.
Qed.

(** X12.  The author of an entry loses its "@c.us": for an author made of
    an identifier without "@" followed by "@c.us", the event written
    carries the URN that NewWhatsAppURN makes of the identifier alone, the
    entry's timestamp and the entry's id. *)
Theorem receiveMessage_author_suffix_stripped (m : moMessage) (identifier : string)
    (urn : URN) (acc : list Event * list Data) (w : World W) :
  FromMe m = false ->
  Author m = identifier ++ "@c.us" ->
  has_char "@" identifier = false ->
  NewWhatsAppURN lib identifier = inr urn ->
  exists event,
    written (calls (snd (receiveMessage_message lib channel m acc w)))
      = (written (calls w) ++ [event])%list /\
    msg_urn event = urn /\
    msg_receivedOn event = Time m /\
    msg_externalID event = ID_ m /\
    msg_channel event = channel.
Proof.
  intros Hme Hauthor Hid Hurn. destruct acc as [events data].
  assert (Hstrip : strings_Replace1 (Author m) "@c.us" "" = identifier).
  { rewrite Hauthor. apply strings_Replace1_suffix. exact Hid. }
  rewrite <- Hstrip in Hurn.
  rewrite (@receiveMessage_message_ok _ _ _ lib channel m events data w urn Hme Hurn).
  eexists.
  destruct (store_WriteMsg _ (host w)) as [[e|] h']; cbn [snd calls];
    rewrite written_app; cbn [written];
    (split; [reflexivity|]);
    unfold receiveMessage_event, receiveMessage_ev;
    destruct (Type_ m =? "image"); destruct (store_externalIDSeen _ (host w));
    cbn; repeat split; reflexivity.
Qed.

End ReceiveMore.

(** ** The further properties, on concrete inputs *)

Section MoreWitnesses.
#[local] Existing Instance Mem.backend.
#[local] Existing Instance Mem.transport.
#[local] Existing Instance Mem.writer.
#[local] Existing Instance Cases.backend.
#[local] Existing Instance Cases.writer.

Lemma strings_Replace1_first_occurrence_witness :
  strings_Replace1 "https://h/send?to=a+b+c" "+" "" = "https://h/send?to=ab+c".
Proof.
  exact (@strings_Replace1_first_occurrence "https://h/send?to=a" "" "b+c" "" "+"%char
           eq_refl).
Defined.

Lemma strings_Replace1_absent_witness :
  strings_Replace1 "status@broadcast" "@c.us" "" = "status@broadcast".
Proof. exact (@strings_Replace1_absent "status@broadcast" "@c.us" "" eq_refl). Defined.

Lemma SendMsg_data_leading_plus_iff_witness :
  dp_ToNoPlus (SendMsg_data (Example.lib Example.no_urn) Example.outgoing) =
    strip_leading_plus "+15551234567" /\
  has_char "+" (ch_address (msg_channel Example.outgoing)) = true.
Proof.
  split.
  - apply (proj1 (SendMsg_data_leading_plus_iff (Example.lib Example.no_urn)
                    Example.outgoing)).
    right. exists "15551234567". reflexivity.
  - reflexivity.
Defined.

Lemma SendMsg_data_metadata_attachments_witness :
  dp_Metadata (SendMsg_data (Example.lib Example.no_urn) Example.attachment_only) =
    [("quick_replies", ["Yes"; "No"])] /\
  dp_Metadata (SendMsg_data (Example.lib Example.no_urn) Example.outgoing) = [].
Proof.
  split.
  - apply (SendMsg_data_metadata_attachments (Example.lib Example.no_urn)
             Example.attachment_only). discriminate.
  - apply (SendMsg_data_metadata_attachments (Example.lib Example.no_urn)
             Example.outgoing). reflexivity.
Defined.


Lemma SendMsg_bad_url_panics_witness :
  fst (SendMsg (Example.lib Example.no_urn) Cases.unsendable (Mem.start Example.host0))
    = Panic "nil pointer dereference" /\
  posted (calls (snd (SendMsg (Example.lib Example.no_urn) Cases.unsendable
                              (Mem.start Example.host0)))) = [].
Proof.
  edestruct (@SendMsg_bad_url_panics Mem.State _ (Example.lib Example.no_urn)
               Cases.unsendable (Mem.start Example.host0)) as [E P];
    [discriminate|reflexivity|reflexivity|].
  rewrite E. split; [reflexivity|exact P].
Defined.

Lemma SendMsg_outcomes_witness :
  exists new,
    calls (snd (SendMsg (Example.lib Example.no_urn) Example.outgoing
                        (Mem.start Example.host_offline))) = new /\
    List.length (posted new) <= 1.
Proof.
  destruct (@SendMsg_outcomes Mem.State _ (Example.lib Example.no_urn) Example.outgoing
              (Mem.start Example.host_offline)) as (new & Hc & Hp & _).
  exists ([] ++ new)%list. split; [exact Hc|exact Hp].
Defined.

Lemma registerUser_error_paths_witness :
  fst (registerUser Cases.registration Cases.nameless_scheme Example.request
                    (mkWorld Cases.all_up [])) = Done ([], None) /\
  calls (snd (registerUser Cases.registration Example.channel Example.request
                           (mkWorld Cases.no_contacts []))) =
    [CallGetContact Example.channel (mkURN "ws" "5511999990000" "" "");
     CallRespond (RequestError (ErrOther "contact store is down"))] /\
  responded (calls (snd (registerUser Cases.registration Example.channel Example.request
                                      (mkWorld Cases.no_languages [])))) =
    [RequestError (ErrOther "language not stored")].
Proof.
  split; [|split].
  - rewrite (proj1 (@registerUser_error_paths Cases.Switches _ _ Cases.registration
                      Cases.nameless_scheme Example.request Cases.good_user
                      (mkWorld Cases.all_up []) "" []
                      eq_refl ltac:(discriminate) eq_refl)
                   (ErrOther "scheme or path cannot be empty") eq_refl).
    reflexivity.
  - rewrite (proj1 (proj2 (@registerUser_error_paths Cases.Switches _ _ Cases.registration
                      Example.channel Example.request Cases.good_user
                      (mkWorld Cases.no_contacts []) "ws" []
                      eq_refl ltac:(discriminate) eq_refl))
                   (mkURN "ws" "5511999990000" "" "")
                   (ErrOther "contact store is down") Cases.no_contacts
                   eq_refl eq_refl).
    reflexivity.
  - rewrite (proj2 (proj2 (@registerUser_error_paths Cases.Switches _ _ Cases.registration
                      Example.channel Example.request Cases.good_user
                      (mkWorld Cases.no_languages []) "ws" []
                      eq_refl ltac:(discriminate) eq_refl))
                   (mkURN "ws" "5511999990000" "" "")
                   (mkContact "contact:5511999990000") Cases.no_languages
                   "por" (ErrOther "language not stored") Cases.no_languages
                   eq_refl eq_refl eq_refl eq_refl).
    reflexivity.
Defined.

Lemma registerUser_success_witness :
  registerUser Cases.registration Example.channel Example.request
               (Mem.start Example.host0) =
    (Done ([], None),
     mkWorld (Mem.mkState [(mkURN "ws" "5511999990000" "" "",
                            mkContact "contact:5511999990000")]
                          [("contact:5511999990000", "por")] [] [] ["out1"] []
                          [DataResponse 200 "Events Handled"
                             [EventRegisteredContactData "contact:5511999990000"]]
                          [] [] true)
             [CallGetContact Example.channel (mkURN "ws" "5511999990000" "" "");
              CallAddLanguageToContact Example.channel "por"
                                       (mkContact "contact:5511999990000");
              CallRespond (DataResponse 200 "Events Handled"
                             [EventRegisteredContactData "contact:5511999990000"])]).
Proof.
  exact (@registerUser_success Mem.State _ _ Cases.registration Example.channel
           Example.request Cases.good_user (Mem.start Example.host0) "ws" []
           (mkURN "ws" "5511999990000" "" "") (mkContact "contact:5511999990000")
           (Mem.mkState [(mkURN "ws" "5511999990000" "" "",
                          mkContact "contact:5511999990000")]
                        [] [] [] ["out1"] [] [] [] [] true)
           (Mem.mkState [(mkURN "ws" "5511999990000" "" "",
                          mkContact "contact:5511999990000")]
                        [("contact:5511999990000", "por")] [] [] ["out1"] [] [] [] [] true)
           "por" "por"
           eq_refl ltac:(discriminate) eq_refl eq_refl eq_refl eq_refl eq_refl).
Defined.

Lemma registerUser_no_scheme_panics_witness :
  registerUser Cases.registration Cases.schemeless Example.request
               (Mem.start Example.host0) =
    (Panic "index out of range", Mem.start Example.host0).
Proof.
  apply (@registerUser_no_scheme_panics Mem.State _ _ Cases.registration
           Cases.schemeless Example.request Cases.good_user);
    [reflexivity|discriminate|reflexivity].
Defined.

Lemma webhook_decode_error_witness :
  registerUser Cases.undecodable Example.channel Example.request (Mem.start Example.host0)
    = (Done ([], None),
       answered (RequestError (ErrOther "unexpected end of JSON input")) Example.host0 []) /\
  receiveMessage Cases.undecodable Example.channel Example.request (Mem.start Example.host0)
    = (Done ([], None),
       answered (RequestError (ErrOther "unexpected end of JSON input")) Example.host0 []).
Proof.
  split.
  - exact (proj1 (@webhook_decode_error Mem.State _ _ Cases.undecodable Example.channel
                    Example.request (Mem.start Example.host0))
                 (ErrOther "unexpected end of JSON input") eq_refl).
  - exact (proj2 (@webhook_decode_error Mem.State _ _ Cases.undecodable Example.channel
                    Example.request (Mem.start Example.host0))
                 (ErrOther "unexpected end of JSON input") eq_refl).
Defined.

Lemma receiveMessage_no_instance_ignored_witness :
  receiveMessage (Cases.lib (inr Example.no_urn) (inr Cases.batch_no_instance))
                 Example.channel Example.request (Mem.start Example.host0)
    = (Done ([], None),
       answered (RequestIgnored "Ignoring request, no message") Example.host0 []).
Proof.
  exact (proj1 (@receiveMessage_no_instance_ignored Mem.State _ _
                  (Cases.lib (inr Example.no_urn) (inr Cases.batch_no_instance))
                  Example.channel Example.request Cases.batch_no_instance
                  (Mem.start Example.host0) eq_refl eq_refl)).
Defined.

Lemma receiveMessage_bad_author_aborts_witness :
  let run := receiveMessage (Cases.lib (inr Example.no_urn) (inr Cases.batch_bad_author))
                            Example.channel Example.request (Mem.start Example.host0) in
  fst run = Done ([], None) /\
  responded (calls (snd run)) = [RequestError (ErrOther "invalid whatsapp id")] /\
  map msg_externalID (Mem.persisted (host (snd run))) = ["id1"].
Proof.
  intros run. subst run.
  edestruct (@receiveMessage_bad_author_aborts Mem.State _ _
               (Cases.lib (inr Example.no_urn) (inr Cases.batch_bad_author))
               Example.channel Example.request Cases.batch_bad_author
               [Example.text_entry] [Example.image_entry] Cases.bad_entry
               (Mem.start Example.host0)) as (E & _);
    [reflexivity|discriminate|reflexivity|reflexivity|reflexivity|reflexivity|].
  rewrite E. repeat split; reflexivity.
Defined.

Lemma receiveMessage_status_failure_aborts_witness :
  let run := receiveMessage (Cases.lib (inr Example.no_urn) (inr Cases.batch_broken_ack))
                            Example.channel Example.request
                            (Mem.start Example.host_failing) in
  fst run = Done ([], Some (ErrOther "unable to write status")) /\
  responded (calls (snd run)) = [] /\
  map msg_externalID (Mem.persisted (host (snd run))) = ["id1"].
Proof.
  intros run. subst run.
  edestruct (@receiveMessage_status_failure_aborts Mem.State _ _
               (Cases.lib (inr Example.no_urn) (inr Cases.batch_broken_ack))
               Example.channel Example.request Cases.batch_broken_ack
               [Example.known_ack] [Example.unknown_ack] Example.broken_ack
               (Mem.start Example.host_failing)) as (E & R & _);
    [reflexivity|discriminate|reflexivity|reflexivity|reflexivity|reflexivity|discriminate|].
  rewrite E. split; [reflexivity|]. split; [exact R|reflexivity].
Defined.

Lemma receiveMessage_outcomes_witness :
  exists events e,
    fst (receiveMessage (Example.lib Example.no_urn) Example.channel Example.request
                        (Mem.start Example.host_failing)) = Done (events, e).
Proof.
  destruct (@receiveMessage_outcomes Mem.State _ _ (Example.lib Example.no_urn)
              Example.channel Example.request (Mem.start Example.host_failing))
    as (events & e & new & E & _).
  exists events, e. exact E.
Defined.

Lemma receiveMessage_ack_statuses_witness :
  Forall2 (acknowledges Example.channel) (Ack Example.batch)
    (status_written
       (calls (snd (receiveMessage (Example.lib Example.no_urn) Example.channel
                                   Example.request (Mem.start Example.host0))))).
Proof.
  destruct (proj1 (@receiveMessage_ack_statuses Mem.State _ _ (Example.lib Example.no_urn)
                     Example.channel Example.request Example.batch
                     (Mem.start Example.host0) eq_refl))
    as (new & Hc & _ & Hall).
  change (calls (Mem.start Example.host0) ++ new)%list with new in Hc.
  rewrite Hc. eapply Hall. rewrite <- Hc. reflexivity.
Defined.

Lemma receiveMessage_accepted_shape_witness :
  exists events e new1 new2,
    fst (receiveMessage (Example.lib Example.no_urn) Example.channel Example.request
                        (Mem.start Example.host0)) = Done (events, e) /\
    calls (snd (receiveMessage (Example.lib Example.no_urn) Example.channel
                               Example.request (Mem.start Example.host0)))
      = ([] ++ new1 ++ new2)%list /\
    status_written new1 = [] /\ written new2 = [].
Proof.
  destruct (@receiveMessage_accepted_shape Mem.State _ _ (Example.lib Example.no_urn)
              Example.channel Example.request Example.batch
              (Mem.start Example.host0) eq_refl)
    as (events & e & new1 & new2 & E & Hc & Hs & Hw & _).
  exists events, e, new1, new2. repeat split; assumption.
Defined.

Lemma receiveMessage_author_suffix_stripped_witness :
  exists event,
    written (calls (snd (receiveMessage_message (Example.lib Example.no_urn)
                           Example.channel Example.text_entry ([], [])
                           (Mem.start Example.host0))))
      = ([] ++ [event])%list /\
    msg_urn event = mkURN "whatsapp" "5511999990000" "" "".
Proof.
  destruct (@receiveMessage_author_suffix_stripped Mem.State _ _
              (Example.lib Example.no_urn) Example.channel Example.text_entry
              "5511999990000" (mkURN "whatsapp" "5511999990000" "" "") ([], [])
              (Mem.start Example.host0) eq_refl eq_refl eq_refl eq_refl)
    as (event & Hw & Hu & _).
  exists event. split; [exact Hw|exact Hu].
Defined.

End MoreWitnesses.
